(** * Brave ledger: notification scheduler and publisher eligibility

    A shallow embedding of [app/common/lib/ledgerUtil.js] and of the ledger
    notification scheduler (showEnabledNotifications and friends), together
    with the properties stated about them.

    JavaScript values are embedded with their coercions written out
    (truthiness, ToNumber, ToString, the relational and additive operators).
    Numbers are NaN or an exact finite decimal: IEEE rounding, the
    infinities and the negative zero are outside the model.  The general
    properties that depend on the result of an addition or a multiplication
    are stated for whole numbers in the range where doubles compute exactly;
    the lemmas on fractions say that they hold in exact arithmetic.  Strings
    are byte strings; whitespace and case mapping are the ASCII ones. *)

From Stdlib Require Import ZArith QArith Qabs Lia Bool List String Ascii.
From stdpp Require Import base strings gmap list fin_maps.

Local Open Scope string_scope.
Local Open Scope Z_scope.

(** ** JavaScript values *)
Module JS.

(** A finite decimal [mant * 10^(-scale)]. *)
Record Dec := mkDec { mant : Z; scale : nat }.

Definition pow10 (n : nat) : Z := 10 ^ Z.of_nat n.

(** Canonical form: trailing zeros of the fraction are dropped. *)
Fixpoint norm_aux (m : Z) (s : nat) : Dec :=
  match s with
  | O => mkDec m O
  | S s' => if m mod 10 =? 0 then norm_aux (m / 10) s' else mkDec m s
  end.

Definition norm (d : Dec) : Dec := norm_aux (mant d) (scale d).

Definition of_Z (z : Z) : Dec := mkDec z 0.

Definition Dadd (a b : Dec) : Dec :=
  norm (mkDec (mant a * pow10 (scale b) + mant b * pow10 (scale a))
              (scale a + scale b)).

Definition Dopp (a : Dec) : Dec := mkDec (- mant a) (scale a).

Definition Dsub (a b : Dec) : Dec :=
  norm (mkDec (mant a * pow10 (scale b) - mant b * pow10 (scale a))
              (scale a + scale b)).

Definition Dmul (a b : Dec) : Dec :=
  norm (mkDec (mant a * mant b) (scale a + scale b)).

(** The rational number a decimal stands for. *)
Definition D2Q (d : Dec) : Q := Qmake (mant d) (Z.to_pos (pow10 (scale d))).

Definition Dcompare (a b : Dec) : comparison :=
  (mant a * pow10 (scale b)) ?= (mant b * pow10 (scale a)).

Definition Dltb (a b : Dec) : bool :=
  match Dcompare a b with Lt => true | _ => false end.

Definition Dleb (a b : Dec) : bool :=
  match Dcompare a b with Gt => false | _ => true end.

Definition Deqb (a b : Dec) : bool :=
  match Dcompare a b with Eq => true | _ => false end.

(** The Number type. *)
Inductive num := NaN | Fin (d : Dec).

Definition lift2 (f : Dec -> Dec -> Dec) (x y : num) : num :=
  match x, y with
  | Fin a, Fin b => Fin (f a b)
  | _, _ => NaN
  end.

Definition nadd := lift2 Dadd.
Definition nsub := lift2 Dsub.
Definition nmul := lift2 Dmul.

(** [x < y] on numbers: [None] is the "undefined" outcome of a NaN operand. *)
Definition ncompare_lt (x y : num) : option bool :=
  match x, y with
  | Fin a, Fin b => Some (Dltb a b)
  | _, _ => None
  end.

Definition num_eqb (x y : num) : bool :=
  match x, y with
  | Fin a, Fin b => Deqb a b
  | _, _ => false
  end.

(** *** Decimal digits *)

Definition digit_of_ascii (c : ascii) : option Z :=
  let n := Z.of_N (N_of_ascii c) in
  if (48 <=? n) && (n <=? 57) then Some (n - 48) else None.

Definition is_digit (c : ascii) : bool :=
  match digit_of_ascii c with Some _ => true | None => false end.

(** Value of a digit string read left to right, starting from [acc]. *)
Fixpoint digits_value (acc : Z) (s : string) : Z :=
  match s with
  | EmptyString => acc
  | String c r =>
      match digit_of_ascii c with
      | Some d => digits_value (10 * acc + d) r
      | None => acc
      end
  end.

(** Longest prefix of digits, and the rest. *)
Fixpoint span_digits (s : string) : string * string :=
  match s with
  | String c r =>
      if is_digit c then let '(d, t) := span_digits r in (String c d, t)
      else (EmptyString, s)
  | EmptyString => (EmptyString, EmptyString)
  end.

Definition digit_char (d : Z) : ascii := ascii_of_N (Z.to_N (48 + d)).

(** Decimal digits of a natural number, most significant first, pushed in
    front of [acc]; the fuel bounds the number of digits after the first. *)
Fixpoint digits_acc (fuel : nat) (n : Z) (acc : string) : string :=
  let acc := String (digit_char (n mod 10)) acc in
  match fuel with
  | O => acc
  | S fuel => if n <? 10 then acc else digits_acc fuel (n / 10) acc
  end.

(** Decimal digits of a natural number, ["0"] for zero. *)
Definition digits_of_Z (z : Z) : string :=
  digits_acc (Z.to_nat (Z.log2 z)) z EmptyString.

Fixpoint all_digits (s : string) : bool :=
  match s with
  | EmptyString => true
  | String c r => is_digit c && all_digits r
  end.

Fixpoint zeros (n : nat) : string :=
  match n with O => EmptyString | S k => String "0" (zeros k) end.

Fixpoint take (n : nat) (s : string) : string :=
  match n, s with
  | S k, String c r => String c (take k r)
  | _, _ => EmptyString
  end.

Fixpoint drop (n : nat) (s : string) : string :=
  match n, s with
  | S k, String _ r => drop k r
  | _, _ => s
  end.

Fixpoint rev_string (acc s : string) : string :=
  match s with
  | EmptyString => acc
  | String c r => rev_string (String c acc) r
  end.

Fixpoint drop_zeros (s : string) : string :=
  match s with
  | String "0" r => drop_zeros r
  | _ => s
  end.

Definition strip_trailing_zeros (s : string) : string :=
  rev_string EmptyString (drop_zeros (rev_string EmptyString s)).

(** *** Number to string (Number::toString, radix 10)

    With [s] the significant digits, [k] their count and [n] the position
    of the decimal point, the value is [0.s * 10^n]. *)
Definition pos_to_string (d : Dec) : string :=
  let ds := digits_of_Z (mant d) in
  let s := strip_trailing_zeros ds in
  let k := Z.of_nat (String.length s) in
  let n := Z.of_nat (String.length ds) - Z.of_nat (scale d) in
  if (k <=? n) && (n <=? 21) then s +:+ zeros (Z.to_nat (n - k))
  else if (0 <? n) && (n <=? 21) then
    take (Z.to_nat n) s +:+ "." +:+ drop (Z.to_nat n) s
  else if (-6 <? n) && (n <=? 0) then "0." +:+ zeros (Z.to_nat (- n)) +:+ s
  else
    let e := n - 1 in
    let es := (if e <? 0 then "-" else "+") +:+ digits_of_Z (Z.abs e) in
    if k =? 1 then s +:+ "e" +:+ es
    else take 1 s +:+ "." +:+ drop 1 s +:+ "e" +:+ es.

Definition num_to_string (x : num) : string :=
  match x with
  | NaN => "NaN"
  | Fin d =>
      let d := norm d in
      if mant d =? 0 then "0"
      else if mant d <? 0 then "-" +:+ pos_to_string (Dopp d)
      else pos_to_string d
  end.

(** *** Number.prototype.toFixed *)

(** The digits of [a >= 0] with [f] fraction digits: the integer n with
    n / 10^f closest to [a], the larger one on a tie. *)
Definition fixed_digits (a : Dec) (f : nat) : string :=
  let n := (2 * mant a * pow10 f + pow10 (scale a)) / (2 * pow10 (scale a)) in
  let m := digits_of_Z n in
  match f with
  | O => m
  | S _ =>
      let m := if (String.length m <=? f)%nat
               then zeros (S f - String.length m) +:+ m else m in
      let k := String.length m in
      take (k - f) m +:+ "." +:+ drop (k - f) m
  end.

Definition toFixed (x : num) (f : nat) : string :=
  match x with
  | NaN => "NaN"
  | Fin d =>
      let neg := mant d <? 0 in
      let a := mkDec (Z.abs (mant d)) (scale d) in
      let m :=
        if Dleb (of_Z (10 ^ 21)) a then num_to_string (Fin a)
        else fixed_digits a f in
      if neg then "-" +:+ m else m
  end.

(** *** String to number *)

Definition is_space (c : ascii) : bool :=
  let n := N_of_ascii c in
  ((9 <=? n) && (n <=? 13) || (n =? 32))%N.

Fixpoint trim_left (s : string) : string :=
  match s with
  | String c r => if is_space c then trim_left r else s
  | EmptyString => s
  end.

Definition trim_right (s : string) : string :=
  rev_string EmptyString (trim_left (rev_string EmptyString s)).

Definition take_sign (s : string) : bool * string :=
  match s with
  | String "-" r => (true, r)
  | String "+" r => (false, r)
  | _ => (false, s)
  end.

(** Optional exponent part: it counts only when at least one digit follows. *)
Definition scan_exponent (s : string) : Z * string :=
  match s with
  | String c r =>
      if (Ascii.eqb c "e" || Ascii.eqb c "E")%bool then
        let '(neg, r1) := take_sign r in
        let '(ds, r2) := span_digits r1 in
        match ds with
        | EmptyString => (0, s)
        | _ => ((if neg then - digits_value 0 ds else digits_value 0 ds), r2)
        end
      else (0, s)
  | EmptyString => (0, s)
  end.

(** Longest prefix that is a decimal literal (StrDecimalLiteral without the
    Infinity word), with the unread rest. *)
Definition scan_decimal (s : string) : option (Dec * string) :=
  let '(neg, s1) := take_sign s in
  let '(ip, s2) := span_digits s1 in
  let '(fp, s3) :=
    match s2 with
    | String "." r => span_digits r
    | _ => (EmptyString, s2)
    end in
  match ip, fp with
  | EmptyString, EmptyString => None
  | _, _ =>
      let m := digits_value 0 (ip +:+ fp) in
      let m := if neg then - m else m in
      let '(e, s4) := scan_exponent s3 in
      let d := if 0 <=? e then mkDec (m * 10 ^ e) (String.length fp)
               else mkDec m (String.length fp + Z.to_nat (- e)) in
      Some (norm d, s4)
  end.

(** The global [parseFloat], on a string argument. *)
Definition parseFloat (s : string) : num :=
  match scan_decimal (trim_left s) with
  | Some (d, _) => Fin d
  | None => NaN
  end.

(** ToNumber on a string: the whole trimmed string must be a decimal
    literal (the Infinity word and the 0x, 0o, 0b literals read as NaN). *)
Definition string_to_number (s : string) : num :=
  let t := trim_right (trim_left s) in
  match t with
  | EmptyString => Fin (of_Z 0)
  | _ =>
      match scan_decimal t with
      | Some (d, EmptyString) => Fin d
      | _ => NaN
      end
  end.

(** The global [parseInt] with radix 10, on a string argument (the prefix
    0x, which switches to radix 16, is not read: no number prints so). *)
Definition parseInt_string (s : string) : num :=
  let '(neg, s1) := take_sign (trim_left s) in
  let '(ds, _) := span_digits s1 in
  match ds with
  | EmptyString => NaN
  | _ => let m := digits_value 0 ds in Fin (of_Z (if neg then - m else m))
  end.

(** [parseInt(x)] on a number first converts it to a string. *)
Definition parseInt (x : num) : num := parseInt_string (num_to_string x).

(** *** Values *)

(** [VObj str size] is an object (an Immutable.js collection or a plain
    object) as far as the embedded code can observe it: its string
    conversion and its [size] property. *)
Inductive Value :=
| VUndef
| VNull
| VBool (b : bool)
| VNum (n : num)
| VStr (s : string)
| VObj (str : string) (size : option nat).

Definition VInt (z : Z) : Value := VNum (Fin (of_Z z)).

Definition truthy (v : Value) : bool :=
  match v with
  | VUndef | VNull => false
  | VBool b => b
  | VNum NaN => false
  | VNum (Fin d) => negb (mant d =? 0)
  | VStr s => negb (String.eqb s "")
  | VObj _ _ => true
  end.

Definition ToNumber (v : Value) : num :=
  match v with
  | VUndef => NaN
  | VNull => Fin (of_Z 0)
  | VBool true => Fin (of_Z 1)
  | VBool false => Fin (of_Z 0)
  | VNum n => n
  | VStr s => string_to_number s
  | VObj s _ => string_to_number s
  end.

Definition ToString (v : Value) : string :=
  match v with
  | VUndef => "undefined"
  | VNull => "null"
  | VBool true => "true"
  | VBool false => "false"
  | VNum n => num_to_string n
  | VStr s => s
  | VObj s _ => s
  end.

(** ToPrimitive: an object becomes its string. *)
Definition ToPrimitive (v : Value) : Value :=
  match v with VObj s _ => VStr s | _ => v end.

(** [a || b], [a && b], [!a]. *)
Definition js_or (a b : Value) : Value := if truthy a then a else b.
Definition js_and (a b : Value) : Value := if truthy a then b else a.
Definition js_not (a : Value) : bool := negb (truthy a).

(** [a == null]. *)
Definition is_nullish (v : Value) : bool :=
  match v with VUndef | VNull => true | _ => false end.

(** [a === b]. *)
Definition strict_eq (a b : Value) : bool :=
  match a, b with
  | VUndef, VUndef | VNull, VNull => true
  | VBool x, VBool y => Bool.eqb x y
  | VNum x, VNum y => num_eqb x y
  | VStr x, VStr y => String.eqb x y
  | _, _ => false
  end.

(** [a + b]: concatenation as soon as one operand is a string. *)
Definition js_add (a b : Value) : Value :=
  match ToPrimitive a, ToPrimitive b with
  | VStr x, pb => VStr (x +:+ ToString pb)
  | pa, VStr y => VStr (ToString pa +:+ y)
  | pa, pb => VNum (nadd (ToNumber pa) (ToNumber pb))
  end.

Definition js_sub (a b : Value) : num := nsub (ToNumber a) (ToNumber b).
Definition js_mul (a b : Value) : num := nmul (ToNumber a) (ToNumber b).

(** Abstract relational comparison [a < b]; [None] is "undefined". *)
Definition js_compare_lt (a b : Value) : option bool :=
  match ToPrimitive a, ToPrimitive b with
  | VStr x, VStr y => Some (String.ltb x y)
  | pa, pb => ncompare_lt (ToNumber pa) (ToNumber pb)
  end.

Definition js_lt (a b : Value) : bool :=
  match js_compare_lt a b with Some r => r | None => false end.
Definition js_gt (a b : Value) : bool := js_lt b a.
Definition js_ge (a b : Value) : bool :=
  match js_compare_lt a b with Some r => negb r | None => false end.
Definition js_le (a b : Value) : bool := js_ge b a.

(** The [size] property of a truthy value. *)
Definition get_size (v : Value) : Value :=
  match v with
  | VObj _ (Some n) => VInt (Z.of_nat n)
  | _ => VUndef
  end.

(** *** String methods *)

(** [s.split(',')] for a one-character separator. *)
Fixpoint split_on (sep : ascii) (cur : string) (s : string) : list string :=
  match s with
  | EmptyString => [rev_string EmptyString cur]
  | String c r =>
      if Ascii.eqb c sep then rev_string EmptyString cur :: split_on sep EmptyString r
      else split_on sep (String c cur) r
  end.

Definition split (sep : ascii) (s : string) : list string :=
  split_on sep EmptyString s.

Definition lower_ascii (c : ascii) : ascii :=
  let n := N_of_ascii c in
  if ((65 <=? n) && (n <=? 90))%N then ascii_of_N (n + 32) else c.

Fixpoint toLowerCase (s : string) : string :=
  match s with
  | EmptyString => EmptyString
  | String c r => String (lower_ascii c) (toLowerCase r)
  end.

Fixpoint startsWith (s p : string) : bool :=
  match p, s with
  | EmptyString, _ => true
  | String a p', String b s' => Ascii.eqb a b && startsWith s' p'
  | String _ _, EmptyString => false
  end.

End JS.

Import JS.

(** ** Application state

    The app state is an Immutable.js map; the accessors below are the ones
    the embedded functions call.  Leaves are JavaScript values. *)

(** Modelled from the spec: a publisher entry of the synopsis (the
    PublisherRecord of the data model), with the fields the code reads. *)
Record Publisher := {
  scores : gmap string Value;
  duration : Value;
  visits : Value;
  options : gmap string Value
}.

(** Modelled from the spec: the parts of the app state that the code
    reads, each under the path the accessors use. *)
Record State := {
  ledger_info : gmap string Value;
  synopsis_options : gmap string Value;
  synopsis_publishers : gmap string Publisher;
  siteSettings : gmap string (gmap string Value);
  firstRunTimestamp : Value
}.

(** [m.get(k)] on an Immutable map with string keys. *)
Definition get (m : gmap string Value) (k : string) : Value :=
  default VUndef (m !! k).

(** [m.get(k)] where the key is itself a value read from the state. *)
Definition get_key (m : gmap string Value) (k : Value) : Value :=
  match k with
  | VStr s => get m s
  | _ => VUndef
  end.

(** [Immutable.Map()] standing for a missing publisher. *)
Definition emptyPublisher : Publisher :=
  {| scores := ∅; duration := VUndef; visits := VUndef; options := ∅ |}.

Module ledgerState.

(** Modelled from the spec: [ledgerState.getInfoProp], whose module
    (app/common/state/ledgerState) is not among the sources; it reads a
    property of the wallet snapshot, null when missing. *)
Definition getInfoProp (state : State) (prop : string) : Value :=
  default VNull (ledger_info state !! prop).

(** Modelled from the spec: [ledgerState.getPublisher], the publisher record
    stored under the key, an empty map when there is none. *)
Definition getPublisher (state : State) (key : string) : Publisher :=
  default emptyPublisher (synopsis_publishers state !! key).

(** Modelled from the spec: [ledgerState.getPublisherOption], an entry of the
    publisher's options. *)
Definition getPublisherOption (state : State) (key prop : string) : Value :=
  get (options (getPublisher state key)) prop.

(** Modelled from the spec: [ledgerState.getSynopsisOption], a global
    synopsis option, null when unset. *)
Definition getSynopsisOption (state : State) (prop : string) : Value :=
  default VNull (synopsis_options state !! prop).

(** Modelled from the spec: [ledgerState.setSynopsisOption], which returns the
    state with the synopsis option set (persistent update). *)
Definition setSynopsisOption (state : State) (prop : string) (value : Value) : State :=
  {| ledger_info := ledger_info state;
     synopsis_options := <[prop := value]> (synopsis_options state);
     synopsis_publishers := synopsis_publishers state;
     siteSettings := siteSettings state;
     firstRunTimestamp := firstRunTimestamp state |}.

End ledgerState.

Module siteSettingsState.

(** Modelled from the spec: [siteSettingsState.getSettingsProp], the
    per-site override stored under a host pattern, undefined when missing. *)
Definition getSettingsProp (state : State) (pattern prop : string) : Value :=
  match siteSettings state !! pattern with
  | Some m => get m prop
  | None => VUndef
  end.

End siteSettingsState.

(** Modelled from the spec: the keys of js/constants/settings (not among
    the sources) that the embedded code reads. *)
Inductive setting :=
| PAYMENTS_ENABLED
| PAYMENTS_NOTIFICATIONS
| PAYMENTS_NOTIFICATION_RECONCILE_SOON_TIMESTAMP
| PAYMENTS_NOTIFICATION_ADD_FUNDS_TIMESTAMP
| PAYMENTS_NOTIFICATION_TRY_PAYMENTS_DISMISSED
| PAYMENTS_ALLOW_NON_VERIFIED.

#[global] Instance setting_eq_dec : EqDecision setting.
Proof. solve_decision. Defined.

(** Modelled from the spec: the persisted settings, as [getSetting] of
    js/settings (not among the sources) reads them. *)
Definition Settings := setting -> Value.

Module ledgerMediaProviders.

(** Modelled from the spec: the provider constant of
    app/common/constants/ledgerMediaProviders (not among the sources); the
    unit test of getMediaKey fixes its lower-case form. *)
Definition YOUTUBE : string := "youtube".

End ledgerMediaProviders.

(** ** app/common/lib/ledgerUtil.js *)
Module ledgerUtil.

Import ledgerState siteSettingsState.

(** The wallet data handed to the formatting functions: the scalar
    properties and the nested [rates] map. *)
Record LedgerData := {
  props : gmap string Value;
  rates : option (gmap string Value)
}.

Definition hasIn_rates_BTC (ledgerData : LedgerData) : bool :=
  match rates ledgerData with
  | Some r => bool_decide (is_Some (r !! "BTC"))
  | None => false
  end.

(** [new BigNumber(rate.toString()).times(balance).toFixed(2)]: BigNumber
    is exact decimal arithmetic, modelled with the same decimals; its
    [toFixed] rounds half away from zero and never uses an exponent.
    BigNumber refuses, with an error, a number of more than 15 significant
    digits; that error is outside the model. *)
Definition big_times_toFixed2 (rate : Value) (balance : num) : string :=
  match nmul (string_to_number (ToString rate)) balance with
  | NaN => "NaN"
  | Fin d =>
      let m := fixed_digits (mkDec (Z.abs (mant d)) (scale d)) 2 in
      if mant d <? 0 then "-" +:+ m else m
  end.

Definition batToCurrencyString (bat : Value) (ledgerData : option LedgerData) : string :=
  let balance := ToNumber (js_or bat (VInt 0)) in
  let currency := "USD" in
  if num_eqb balance (Fin (of_Z 0)) then "0.00 " +:+ currency
  else
    match ledgerData with
    | None => ""
    | Some ld =>
        if negb (hasIn_rates_BTC ld) then ""
        else
          let rate := js_or (get (props ld) "currentRate") (VInt 0) in
          let converted := big_times_toFixed2 rate balance in
          converted +:+ " " +:+ currency
    end.

Record Status := { id : string; args : option string }.

Definition walletStatus (ledgerData : LedgerData) : Status :=
  let ld := props ledgerData in
  if truthy (get ld "error") then {| id := "statusOnError"; args := None |}
  else if truthy (get ld "created") then
    let transactions := get ld "transactions" in
    let pendingFunds := VStr (toFixed (ToNumber (js_or (get ld "unconfirmed") (VInt 0))) 2) in
    if js_lt (js_add pendingFunds (VNum (ToNumber (js_or (get ld "balance") (VInt 0)))))
             (VNum (nmul (Fin (mkDec 9 1)) (ToNumber (js_or (get ld "bat") (VInt 0)))))
    then {| id := "insufficientFundsStatus"; args := None |}
    else if js_gt pendingFunds (VInt 0) then
      {| id := "pendingFundsStatus";
         args := Some (ToString pendingFunds +:+ " BAT (" +:+
                       batToCurrencyString pendingFunds (Some ledgerData) +:+ ")") |}
    else if truthy (js_and transactions (VBool (js_gt (get_size transactions) (VInt 0))))
    then {| id := "defaultWalletStatus"; args := None |}
    else {| id := "createdWalletStatus"; args := None |}
  else if truthy (get ld "creating") then {| id := "creatingWalletStatus"; args := None |}
  else {| id := "createWalletStatus"; args := None |}.

Section predicates.

(** [urlUtil.getHostPattern], the site-settings key of a publisher
    (js/lib/urlutil is not among the sources). *)
Variable getHostPattern : string -> string.

Definition blockedP (state : State) (publisherKey : string) : bool :=
  let pattern := getHostPattern publisherKey in
  let ledgerPaymentsShown := getSettingsProp state pattern "ledgerPaymentsShown" in
  strict_eq ledgerPaymentsShown (VBool false).

Definition eligibleP (state : State) (publisherKey : string) : bool :=
  let scorekeeper := getSynopsisOption state "scorekeeper" in
  let minPublisherDuration := getSynopsisOption state "minPublisherDuration" in
  let minPublisherVisits := getSynopsisOption state "minPublisherVisits" in
  let publisher := getPublisher state publisherKey in
  js_gt (get_key (scores publisher) scorekeeper) (VInt 0) &&
  js_ge (duration publisher) minPublisherDuration &&
  js_ge (visits publisher) minPublisherVisits.

Definition stickyP (state : State) (publisherKey : string) : Value :=
  let pattern := getHostPattern publisherKey in
  let result := getSettingsProp state pattern "ledgerPayments" in
  let result :=
    if is_nullish result then
      let excluded := getPublisherOption state publisherKey "exclude" in
      if negb (is_nullish excluded) then VBool (js_not excluded) else result
    else result in
  js_or (VBool (strict_eq result VUndef)) result.

Definition contributeP (state : State) (publisherKey : string) : Value :=
  let publisher := getPublisher state publisherKey in
  js_and
    (js_and
       (js_or (stickyP state publisherKey)
              (VBool (negb (strict_eq (get (options publisher) "exclude") (VBool true)))))
       (VBool (eligibleP state publisherKey)))
    (VBool (negb (blockedP state publisherKey))).

(** The first half of [visibleP]: the value of [showOnlyVerified] and the
    binding of the local variable [state] after the [if]. *)
Definition visibleP_locals (getSetting : Settings) (state : State) : Value * State :=
  let showOnlyVerified := getSynopsisOption state "showOnlyVerified" in
  if is_nullish showOnlyVerified then
    let showOnlyVerified := getSetting PAYMENTS_ALLOW_NON_VERIFIED in
    (showOnlyVerified, setSynopsisOption state "showOnlyVerified" showOnlyVerified)
  else (showOnlyVerified, state).

Definition visibleP (getSetting : Settings) (state : State) (publisherKey : string) : Value :=
  let publisher := getPublisher state publisherKey in
  let '(showOnlyVerified, state) := visibleP_locals getSetting state in
  let publisherOptions := options publisher in
  let onlyVerified := js_not showOnlyVerified in
  let deletedByUser := blockedP state publisherKey in
  let eligibleByStats := eligibleP state publisherKey in
  let verifiedPublisher := get publisherOptions "verified" in
  js_and
    (js_and (VBool eligibleByStats)
            (js_or (js_and (VBool onlyVerified) verifiedPublisher)
                   (VBool (negb onlyVerified))))
    (VBool (negb deletedByUser)).

End predicates.

(** The media id and the provider type are strings, or null. *)
Definition getMediaKey (id type : option string) : option string :=
  match id, type with
  | Some id, Some type => Some (toLowerCase type +:+ "_" +:+ id)
  | _, _ => None
  end.

(** The parsed query of a telemetry request: string fields by name. *)
Definition Query := gmap string string.

(** The loop of [getYouTubeDuration], over two lists of equal length. *)
Fixpoint sum_segments (time : num) (startTime endTime : list string) : num :=
  match startTime, endTime with
  | s :: startTime, e :: endTime =>
      sum_segments (nadd time (nsub (parseFloat e) (parseFloat s))) startTime endTime
  | _, _ => time
  end.

Definition getYouTubeDuration (data : option Query) : num :=
  let time := Fin (of_Z 0) in
  match data with
  | None => time
  | Some data =>
      match data !! "st", data !! "et" with
      | Some st, Some et =>
          let startTime := split "," st in
          let endTime := split "," et in
          if negb (length startTime =? length endTime)%nat then time
          else
            let time := sum_segments time startTime endTime in
            (* we get seconds back, so we need to convert it into ms *)
            let time := nmul time (Fin (of_Z 1000)) in
            parseInt time
      | _, _ => time
      end
  end.

Definition getMediaDuration (data : option Query) (type : option string) : num :=
  match type with
  | Some t =>
      if String.eqb t ledgerMediaProviders.YOUTUBE then getYouTubeDuration data
      else Fin (of_Z 0)
  | None => Fin (of_Z 0)
  end.

Definition getMediaProvider (url : option string) : option string :=
  match url with
  | None => None
  | Some url =>
      if startsWith url "https://www.youtube.com/api/stats/watchtime?"
      then Some ledgerMediaProviders.YOUTUBE else None
  end.

(** The media id of a telemetry request; [None] stands for null and for
    undefined alike (a missing docid). *)
Definition getMediaId (data : option Query) (type : option string) : option string :=
  match type, data with
  | Some type, Some data =>
      if String.eqb type ledgerMediaProviders.YOUTUBE then data !! "docid" else None
  | _, _ => None
  end.

End ledgerUtil.

(** ** The ledger notification scheduler *)
Module ledgerNotifications.

Import ledgerState.

Module miliseconds.
Definition year : Z := 365 * 24 * 60 * 60 * 1000.
Definition week : Z := 7 * 24 * 60 * 60 * 1000.
Definition day : Z := 24 * 60 * 60 * 1000.
Definition hour : Z := 60 * 60 * 1000.
Definition minute : Z := 60 * 1000.
Definition second : Z := 1000.
End miliseconds.

Definition pollingInterval : Z := 15 * miliseconds.minute.
Definition nextAddFundsTime : Z := 3 * miliseconds.day.

Record Button := { text : string; className : option string }.

Record DisplayOptions := { style : string; persist : bool }.

Definition displayOptions : DisplayOptions :=
  {| style := "greetingStyle"; persist := false |}.

Record Notification := {
  from : string;
  greeting : string;
  message : string;
  buttons : list Button;
  notificationOptions : DisplayOptions
}.

(** Modelled from the spec: the calls made on [appActions]
    (js/actions/appActions is not among the sources), which the scheduler
    only emits. *)
Inductive Action :=
| changeSetting (key : setting) (value : Value)
| showNotification (n : Notification)
| hideNotification (message : Value)
| createTabRequested (url : string) (windowId : Z).

(** What the scheduler reads and writes besides its arguments: the settings
    store, the successive readings of [new Date().getTime()], the mutable
    [text.paymentDone], and the actions dispatched so far. *)
Record World := {
  settings : Settings;
  clock : nat -> Z;
  reads : nat;
  paymentDone : Value;
  dispatched : list Action
}.

Inductive Completion (A : Type) :=
| Normal (a : A)
| Throw (error : string).
Arguments Normal {A} a.
Arguments Throw {A} error.

Definition M (A : Type) : Type := World -> Completion A * World.

Definition ret {A} (a : A) : M A := fun w => (Normal a, w).

Definition bind {A B} (m : M A) (k : A -> M B) : M B :=
  fun w =>
    match m w with
    | (Normal a, w') => k a w'
    | (Throw e, w') => (Throw e, w')
    end.

Definition throw {A} (e : string) : M A := fun w => (Throw e, w).

Notation "x <- m ;; k" := (bind m (fun x => k))
  (at level 100, m at next level, right associativity).
Notation "m ;;; k" := (bind m (fun _ => k))
  (at level 100, right associativity).

Definition getSetting (key : setting) : M Value :=
  fun w => (Normal (settings w key), w).

(** [new Date().getTime()] *)
Definition getTime : M Value :=
  fun w => (Normal (VInt (clock w (reads w))),
            {| settings := settings w; clock := clock w; reads := S (reads w);
               paymentDone := paymentDone w; dispatched := dispatched w |}).

Definition getPaymentDone : M Value :=
  fun w => (Normal (paymentDone w), w).

Definition update_setting (st : Settings) (key : setting) (value : Value) : Settings :=
  fun k => if decide (k = key) then value else st k.

(** Dispatching an action records it; a changed setting is what the next
    [getSetting] reads. *)
Definition dispatch (a : Action) : M unit :=
  fun w => (Normal tt,
            {| settings := match a with
                           | changeSetting key value => update_setting (settings w) key value
                           | _ => settings w
                           end;
               clock := clock w; reads := reads w;
               paymentDone := paymentDone w;
               dispatched := dispatched w ++ [a] |}).

Section scheduler.

(** [locale.translation] and [appConfig.payments.delayNotificationTryPayments]. *)
Variable translation : string -> string.
Variable delayNotificationTryPayments : Value.

Definition text_hello : string := translation "updateHello".
Definition text_addFunds : string := translation "addFundsNotification".
Definition text_tryPayments : string := translation "notificationTryPayments".
Definition text_reconciliation : string := translation "reconciliationNotification".
Definition text_walletConvertedToBat : string := translation "walletConvertedToBat".

Definition sufficientBalanceToReconcile (state : State) : Value :=
  let balance := ToNumber (js_or (getInfoProp state "balance") (VInt 0)) in
  let unconfirmed := ToNumber (js_or (getInfoProp state "unconfirmed") (VInt 0)) in
  let bat := getInfoProp state "bat" in
  js_and bat
    (VBool (js_gt (VNum (nadd balance unconfirmed))
                  (VNum (nmul (Fin (mkDec 9 1)) (ToNumber bat))))).

Definition hasFunds (state : State) : M bool :=
  enabled <- getSetting PAYMENTS_ENABLED ;;
  let balance :=
    if truthy enabled then ToNumber (js_or (getInfoProp state "balance") (VInt 0))
    else Fin (of_Z 0) in
  ret (js_gt (VNum balance) (VInt 0)).

Definition shouldShowNotificationReviewPublishers : M bool :=
  nextTime <- getSetting PAYMENTS_NOTIFICATION_RECONCILE_SOON_TIMESTAMP ;;
  if js_not nextTime then ret true
  else now <- getTime ;; ret (js_gt now nextTime).

Definition shouldShowNotificationAddFunds : M bool :=
  nextTime <- getSetting PAYMENTS_NOTIFICATION_ADD_FUNDS_TIMESTAMP ;;
  if js_not nextTime then ret true
  else now <- getTime ;; ret (js_gt now nextTime).

Definition reviewPublishersNotification : Notification :=
  {| from := "ledger";
     greeting := text_hello;
     message := text_reconciliation;
     buttons :=
       [ {| text := translation "turnOffNotifications"; className := None |};
         {| text := translation "dismiss"; className := None |};
         {| text := translation "reviewSites"; className := Some "primaryButton" |} ];
     notificationOptions := displayOptions |}.

Definition showReviewPublishers (nextTime : Value) : M unit :=
  dispatch (changeSetting PAYMENTS_NOTIFICATION_RECONCILE_SOON_TIMESTAMP nextTime) ;;;
  dispatch (showNotification reviewPublishersNotification).

Definition addFundsNotification : Notification :=
  {| from := "ledger";
     greeting := text_hello;
     message := text_addFunds;
     buttons :=
       [ {| text := translation "turnOffNotifications"; className := None |};
         {| text := translation "updateLater"; className := None |};
         {| text := translation "addFunds"; className := Some "primaryButton" |} ];
     notificationOptions := displayOptions |}.

Definition showAddFunds : M unit :=
  now <- getTime ;;
  let nextTime := js_add now (VInt nextAddFundsTime) in
  dispatch (changeSetting PAYMENTS_NOTIFICATION_ADD_FUNDS_TIMESTAMP nextTime) ;;;
  dispatch (showNotification addFundsNotification).

Definition showEnabledNotifications (state : State) : M unit :=
  let reconcileStamp := getInfoProp state "reconcileStamp" in
  if js_not reconcileStamp then ret tt
  else
    now <- getTime ;;
    if js_lt (VNum (js_sub reconcileStamp now)) (VInt miliseconds.day) then
      if truthy (sufficientBalanceToReconcile state) then
        show <- shouldShowNotificationReviewPublishers ;;
        if show then
          let reconcileFrequency := getInfoProp state "reconcileFrequency" in
          showReviewPublishers
            (js_add reconcileStamp
               (VNum (nmul (js_sub reconcileFrequency (VInt 2))
                           (Fin (of_Z miliseconds.day)))))
        else ret tt
      else
        show <- shouldShowNotificationAddFunds ;;
        if show then showAddFunds else ret tt
    else
      now <- getTime ;;
      if js_lt (VNum (js_sub reconcileStamp now)) (VInt (2 * miliseconds.day)) then
        if truthy (sufficientBalanceToReconcile state) then
          show <- shouldShowNotificationReviewPublishers ;;
          if show then
            now <- getTime ;;
            showReviewPublishers (js_add now (VInt miliseconds.day))
          else ret tt
        else ret tt
      else ret tt.

Definition tryPaymentsNotification : Notification :=
  {| from := "ledger";
     greeting := translation "updateHello";
     message := text_tryPayments;
     buttons :=
       [ {| text := translation "noThanks"; className := None |};
         {| text := translation "notificationTryPaymentsYes";
            className := Some "primaryButton" |} ];
     notificationOptions := {| style := "greetingStyle"; persist := false |} |}.

Definition showDisabledNotifications (state : State) : M unit :=
  dismissed <- getSetting PAYMENTS_NOTIFICATION_TRY_PAYMENTS_DISMISSED ;;
  if js_not dismissed then
    let firstRunTimestamp := firstRunTimestamp state in
    now <- getTime ;;
    if js_lt (VNum (js_sub now firstRunTimestamp)) delayNotificationTryPayments
    then ret tt
    else dispatch (showNotification tryPaymentsNotification)
  else ret tt.

Definition onInterval (state : State) : M unit :=
  enabled <- getSetting PAYMENTS_ENABLED ;;
  if truthy enabled then
    notifications <- getSetting PAYMENTS_NOTIFICATIONS ;;
    if truthy notifications then showEnabledNotifications state else ret tt
  else showDisabledNotifications state.

(** [activeWindow] is the id of the active window, [None] when there is
    no window (null). *)
Definition onResponse (message buttonIndex : Value) (activeWindow : option Z) : M unit :=
  paymentDone <- getPaymentDone ;;
  let openPayments (idx : Z) : M unit :=
    if strict_eq buttonIndex (VInt idx) then
      match activeWindow with
      | Some windowId => dispatch (createTabRequested "about:preferences#payments" windowId)
      | None => ret tt
      end
    else ret tt in
  let turnOffOr (k : M unit) : M unit :=
    if strict_eq buttonIndex (VInt 0)
    then dispatch (changeSetting PAYMENTS_NOTIFICATIONS (VBool false))
    else k in
  if strict_eq message (VStr text_addFunds) then
    turnOffOr (openPayments 2) ;;; dispatch (hideNotification message)
  else if strict_eq message (VStr text_reconciliation) then
    turnOffOr (openPayments 2) ;;; dispatch (hideNotification message)
  else if strict_eq message paymentDone then
    turnOffOr (ret tt) ;;; dispatch (hideNotification message)
  else if strict_eq message (VStr text_tryPayments) then
    openPayments 1 ;;;
    dispatch (changeSetting PAYMENTS_NOTIFICATION_TRY_PAYMENTS_DISMISSED (VBool true)) ;;;
    dispatch (hideNotification message)
  else if strict_eq message (VStr text_walletConvertedToBat) then
    (if strict_eq buttonIndex (VInt 0) then
       match activeWindow with
       | Some windowId =>
           dispatch (createTabRequested
                       "about:preferences#payments?ledgerBackupOverlayVisible" windowId)
       | None => throw "TypeError"
       end
     else ret tt) ;;;
    dispatch (hideNotification message)
  else ret tt.

(** What happens to the scheduler between two instants: the timer fires
    with the current app state, or the user answers a notification. *)
Inductive Event :=
| Tick (state : State)
| Response (message buttonIndex : Value) (activeWindow : option Z).

Definition handle (e : Event) : M unit :=
  match e with
  | Tick state => onInterval state
  | Response message buttonIndex activeWindow => onResponse message buttonIndex activeWindow
  end.

(** The events are handled one after the other; an exception ends the
    handler that raised it, not the run. *)
Fixpoint run (events : list Event) (w : World) : World :=
  match events with
  | [] => w
  | e :: rest => run rest (snd (handle e w))
  end.

End scheduler.

Section launch.

(** [ledger.checkBtcBatMigrated], the three readers of migrationState, and
    the function that [module.exports.showBraveWalletUpdated] holds when
    [onLaunch] runs (none of them is among the sources). *)
Variable checkBtcBatMigrated : State -> Value -> State.
Variables isNewInstall hasUpgradedWallet hasBeenNotified : State -> Value.
Variable showBraveWalletUpdated : M unit.

Definition onLaunch (state : State) : M State :=
  enabled <- getSetting PAYMENTS_ENABLED ;;
  if js_not enabled then ret state
  else
    let state := checkBtcBatMigrated state enabled in
    funds <- hasFunds state ;;
    if funds then
      notifications <- getSetting PAYMENTS_NOTIFICATIONS ;;
      if js_not notifications then ret state
      else
        let isNewInstall := isNewInstall state in
        let hasUpgradedWallet := hasUpgradedWallet state in
        let hasBeenNotified := hasBeenNotified state in
        if truthy (js_and (js_and (VBool (js_not isNewInstall)) hasUpgradedWallet)
                          (VBool (js_not hasBeenNotified)))
        then showBraveWalletUpdated ;;; ret state
        else ret state
    else ret state.

End launch.

(** *** The polling timer

    The timers of the process: each [setInterval] makes a new handle (a
    Timeout object, always truthy), here numbered in order of creation, and
    [clearInterval] removes the timer of a handle.  A live timer is kept with
    its period and the argument handed to its callback. *)
Record Timers := {
  intervalTimeout : option nat;
  live : gmap nat (Z * State);
  created : nat
}.

Definition setInterval (delay : Z) (arg : State) (t : Timers) : nat * Timers :=
  (created t,
   {| intervalTimeout := intervalTimeout t;
      live := <[created t := (delay, arg)]> (live t);
      created := S (created t) |}).

Definition clearInterval (handle : nat) (t : Timers) : Timers :=
  {| intervalTimeout := intervalTimeout t;
     live := delete handle (live t);
     created := created t |}.

Definition init (state : State) (t : Timers) : Timers :=
  let t := match intervalTimeout t with
           | Some handle => clearInterval handle t
           | None => t
           end in
  let '(handle, t) := setInterval pollingInterval state t in
  {| intervalTimeout := Some handle; live := live t; created := created t |}.

End ledgerNotifications.

(** * Vocabulary of the properties, and sample data *)

Section vocabulary.

Import ledgerState ledgerNotifications.

(** Two worlds that differ at most by the number of clock readings. *)
Definition same_but_reads (w w1 : World) : Prop :=
  settings w1 = settings w /\ clock w1 = clock w /\
  paymentDone w1 = paymentDone w /\ dispatched w1 = dispatched w /\
  (reads w <= reads w1)%nat.

(** A timestamp that does not hold a notification back: none (a falsy
    setting), or an instant already past. *)
Definition elapsed (nextTime : Value) (now : Z) : Prop :=
  js_not nextTime = true \/ exists t, nextTime = VInt t /\ t < now.

(** The two notifications that carry a persisted timestamp. *)
Inductive Kind := ReviewPublishers | AddFunds.

Definition timestampOf (kind : Kind) : setting :=
  match kind with
  | ReviewPublishers => PAYMENTS_NOTIFICATION_RECONCILE_SOON_TIMESTAMP
  | AddFunds => PAYMENTS_NOTIFICATION_ADD_FUNDS_TIMESTAMP
  end.

Definition messageOf (translation : string -> string) (kind : Kind) : string :=
  match kind with
  | ReviewPublishers => text_reconciliation translation
  | AddFunds => text_addFunds translation
  end.

(** A notification is told by its message. *)
Definition emits (translation : string -> string) (kind : Kind) (a : Action) : Prop :=
  match a with
  | showNotification n => message n = messageOf translation kind
  | _ => False
  end.

Definition distinct_messages (translation : string -> string) : Prop :=
  text_reconciliation translation <> text_addFunds translation /\
  text_tryPayments translation <> text_reconciliation translation /\
  text_tryPayments translation <> text_addFunds translation.

(** Truncation of a decimal to an integer, toward zero. *)
Definition Dtrunc (d : Dec) : Z := Z.quot (mant d) (pow10 (scale d)).

(** A decimal in canonical form has no trailing zero in its fraction. *)
Definition canonical (d : Dec) : Prop := scale d = O \/ mant d mod 10 <> 0.

(** The numbers printed without an exponent: zero, and those of magnitude
    from 1e-6 up to, but not including, 1e21. *)
Definition prints_plain (d : Dec) : Prop :=
  (D2Q d == 0)%Q \/
  ((1 # 1000000) <= Qabs (D2Q d))%Q /\ (Qabs (D2Q d) < inject_Z (10 ^ 21))%Q.

(** The watch time of the segments, in seconds. *)
Fixpoint segments_total (starts ends : list Dec) : Q :=
  match starts, ends with
  | s :: starts, e :: ends => (D2Q e - D2Q s) + segments_total starts ends
  | _, _ => 0
  end.

(** The watch time of segments that start and end on whole seconds. *)
Fixpoint whole_total (starts ends : list Z) : Z :=
  match starts, ends with
  | s :: starts, e :: ends => (e - s) + whole_total starts ends
  | _, _ => 0
  end.

(** The strings of a list read, by [parseFloat], as the given numbers. *)
Definition parsed (strings : list string) (numbers : list Dec) : Prop :=
  Forall2 (fun str d => parseFloat str = Fin d) strings numbers.

(** The number of milliseconds [getYouTubeDuration] hands to [parseInt]. *)
Definition segments_ms (st et : string) : num :=
  nmul (ledgerUtil.sum_segments (Fin (of_Z 0)) (split "," st) (split "," et))
       (Fin (of_Z 1000)).

(** Sample data. *)

Definition query (st et : string) : option ledgerUtil.Query :=
  Some (<["st" := st]> (<["et" := et]> ∅)).

Definition walletAt (reconcileStamp reconcileFrequency balance unconfirmed bat : Value) : State :=
  {| ledger_info :=
       <["reconcileStamp" := reconcileStamp]>
         (<["reconcileFrequency" := reconcileFrequency]>
            (<["balance" := balance]>
               (<["unconfirmed" := unconfirmed]> (<["bat" := bat]> ∅))));
     synopsis_options := ∅;
     synopsis_publishers := ∅;
     siteSettings := ∅;
     firstRunTimestamp := VUndef |}.

Definition walletData (unconfirmed balance bat : Value) : ledgerUtil.LedgerData :=
  {| ledgerUtil.props :=
       <["created" := VBool true]>
         (<["unconfirmed" := unconfirmed]>
            (<["balance" := balance]> (<["bat" := bat]> ∅)));
     ledgerUtil.rates := None |}.

Definition publisherWith (duration visits : Z) : Publisher :=
  {| scores := {[ "concave" := VInt 5 ]};
     duration := VInt duration;
     visits := VInt visits;
     options := ∅ |}.

(** One publisher, "brave.com", with thresholds of 8 seconds and one visit;
    the showOnlyVerified option is not set. *)
Definition synopsisWith (p : Publisher) : State :=
  {| ledger_info := ∅;
     synopsis_options :=
       <["scorekeeper" := VStr "concave"]>
         (<["minPublisherDuration" := VInt 8000]>
            (<["minPublisherVisits" := VInt 1]> ∅));
     synopsis_publishers := {[ "brave.com" := p ]};
     siteSettings := ∅;
     firstRunTimestamp := VUndef |}.

(** Payments and notifications enabled, with the two timestamps given. *)
Definition settingsWith (review addFunds : Value) : Settings :=
  fun key =>
    match key with
    | PAYMENTS_ENABLED => VBool true
    | PAYMENTS_NOTIFICATIONS => VBool true
    | PAYMENTS_NOTIFICATION_RECONCILE_SOON_TIMESTAMP => review
    | PAYMENTS_NOTIFICATION_ADD_FUNDS_TIMESTAMP => addFunds
    | PAYMENTS_NOTIFICATION_TRY_PAYMENTS_DISMISSED => VBool false
    | PAYMENTS_ALLOW_NON_VERIFIED => VBool true
    end.

Definition allowNonVerified (b : bool) : Settings := fun _ => VBool b.

(** A host pattern for the samples. *)
Definition hostPattern (publisherKey : string) : string :=
  "https?://" +:+ publisherKey.

(** A world whose clock stands at [now]. *)
Definition worldAt (now : Z) (st : Settings) : World :=
  {| settings := st; clock := fun _ => now; reads := 0;
     paymentDone := VUndef; dispatched := [] |}.

(** Settings with payments disabled. *)
Definition settingsDisabled (dismissed : Value) : Settings :=
  fun key =>
    match key with
    | PAYMENTS_NOTIFICATION_TRY_PAYMENTS_DISMISSED => dismissed
    | PAYMENTS_NOTIFICATIONS => VBool true
    | _ => VBool false
    end.

(** An app state that only records the first run. *)
Definition firstRunAt (t : Z) : State :=
  {| ledger_info := ∅; synopsis_options := ∅; synopsis_publishers := ∅;
     siteSettings := ∅; firstRunTimestamp := VInt t |}.

(** [init] called once for each state of a list, in order. *)
Definition inits (states : list State) (t : ledgerNotifications.Timers)
  : ledgerNotifications.Timers :=
  fold_left (fun t state => ledgerNotifications.init state t) states t.

(** Every live timer has a handle that was handed out before. *)
Definition handles_created (t : ledgerNotifications.Timers) : Prop :=
  forall h, is_Some (ledgerNotifications.live t !! h) ->
            (h < ledgerNotifications.created t)%nat.

(** The timers of other modules, before this one is initialised. *)
Definition otherTimers (state : State) : ledgerNotifications.Timers :=
  {| ledgerNotifications.intervalTimeout := None;
     ledgerNotifications.live := {[ 0%nat := (1000, state) ]};
     ledgerNotifications.created := 1 |}.

(** The notification that an action shows, if it shows one. *)
Definition shown (a : Action) : option Notification :=
  match a with
  | showNotification n => Some n
  | _ => None
  end.

(** An action that shows a notification with the given message. *)
Definition shows_message (msg : string) (a : Action) : Prop :=
  exists n, shown a = Some n /\ message n = msg.

(** Actions that show nothing. *)
Definition silent (actions : list Action) : Prop :=
  Forall (fun a => shown a = None) actions.

End vocabulary.

Ltac exec :=
  unfold ledgerNotifications.handle, ledgerNotifications.onInterval,
    ledgerNotifications.showEnabledNotifications,
    ledgerNotifications.showDisabledNotifications,
    ledgerNotifications.shouldShowNotificationReviewPublishers,
    ledgerNotifications.shouldShowNotificationAddFunds,
    ledgerNotifications.showReviewPublishers, ledgerNotifications.showAddFunds,
    ledgerNotifications.onResponse,
    ledgerNotifications.bind, ledgerNotifications.getSetting,
    ledgerNotifications.getTime, ledgerNotifications.getPaymentDone,
    ledgerNotifications.dispatch, ledgerNotifications.ret, ledgerNotifications.throw;
  cbn [fst snd ledgerNotifications.settings ledgerNotifications.clock
       ledgerNotifications.reads ledgerNotifications.paymentDone
       ledgerNotifications.dispatched].

Ltac branch :=
  repeat match goal with
    | |- context [if ?c then _ else _] =>
        lazymatch c with
        | context [if _ then _ else _] => fail
        | _ => destruct c eqn:?;
               cbn [fst snd ledgerNotifications.settings ledgerNotifications.clock
                    ledgerNotifications.reads ledgerNotifications.paymentDone
                    ledgerNotifications.dispatched]
        end
    | |- context [match ?c with Some _ => _ | None => _ end] =>
        destruct c eqn:?;
        cbn [fst snd ledgerNotifications.settings ledgerNotifications.clock
             ledgerNotifications.reads ledgerNotifications.paymentDone
             ledgerNotifications.dispatched]
    end.

(** * Properties *)

(** ** The value model on samples *)
Example num_to_string_samples :
  map num_to_string
      [Fin (of_Z 5); Fin (mkDec 14762 3); Fin (mkDec 1 7); Fin (mkDec (-50) 1);
       Fin (of_Z (10 ^ 21)); Fin (mkDec 123456 10); NaN; Fin (mkDec 5 3)]
  = ["5"; "14.762"; "1e-7"; "-5"; "1e+21"; "0.0000123456"; "NaN"; "0.005"].
Proof. vm_compute. reflexivity. Qed.

Example toFixed_samples :
  map (fun x => toFixed x 2)
      [Fin (of_Z 0); Fin (mkDec 500003 5); Fin (mkDec 11234 4);
       Fin (mkDec (-1) 3); Fin (mkDec 5 3); Fin (mkDec 12345 1)]
  = ["0.00"; "5.00"; "1.12"; "-0.00"; "0.01"; "1234.50"].
Proof. vm_compute. reflexivity. Qed.

Example parse_samples :
  map parseFloat ["21.339"; " 25.000"; "1e3x"; "abc"; ""; ".5"; "5."; "-1.5e-2"; "7e"]
  = [Fin (mkDec 21339 3); Fin (of_Z 25); Fin (of_Z 1000); NaN; NaN;
     Fin (mkDec 5 1); Fin (of_Z 5); Fin (mkDec (-15) 3); Fin (of_Z 7)].
Proof. vm_compute. reflexivity. Qed.

Example split_samples :
  split "," "11.338,21.339,25.000" = ["11.338"; "21.339"; "25.000"]
  /\ split "," "" = [""] /\ split "," "a," = ["a"; ""].
Proof. vm_compute. auto. Qed.

(** ** Decimal arithmetic is exact *)
Section decimals.

Lemma pow10_pos n : 0 < pow10 n.
Proof. unfold pow10. apply Z.pow_pos_nonneg; lia. Qed.

Lemma pow10_add a b : pow10 (a + b) = pow10 a * pow10 b.
Proof. unfold pow10. rewrite Nat2Z.inj_add, Z.pow_add_r; lia. Qed.

Lemma pow10_S n : pow10 (S n) = 10 * pow10 n.
Proof. unfold pow10. rewrite Nat2Z.inj_succ, Z.pow_succ_r; lia. Qed.

Lemma den_pos d : Z.pos (Z.to_pos (pow10 (scale d))) = pow10 (scale d).
Proof. apply Z2Pos.id, pow10_pos. Qed.

Lemma D2Q_mk m s : D2Q (mkDec m s) = Qmake m (Z.to_pos (pow10 s)).
Proof. reflexivity. Qed.

Lemma Qeq_mk m1 s1 m2 s2 :
  (m1 # Z.to_pos (pow10 s1) == m2 # Z.to_pos (pow10 s2))%Q <->
  m1 * pow10 s2 = m2 * pow10 s1.
Proof.
  unfold Qeq; simpl. rewrite !Z2Pos.id by apply pow10_pos. reflexivity.
Qed.

Lemma norm_aux_correct s : forall m, (D2Q (norm_aux m s) == D2Q (mkDec m s))%Q.
Proof.
  induction s as [|s IH]; intros m; simpl.
  - reflexivity.
  - destruct (Z.eqb_spec (m mod 10) 0) as [Hm|Hm]; [|reflexivity].
    rewrite IH, !D2Q_mk. apply Qeq_mk. rewrite pow10_S.
    pose proof (Z_div_mod_eq_full m 10). lia.
Qed.

Lemma D2Q_norm d : (D2Q (norm d) == D2Q d)%Q.
Proof. destruct d as [m s]. apply norm_aux_correct. Qed.

Lemma D2Q_of_Z z : (D2Q (of_Z z) == inject_Z z)%Q.
Proof. unfold D2Q, of_Z, inject_Z; simpl. reflexivity. Qed.

Lemma D2Q_add a b : (D2Q (Dadd a b) == D2Q a + D2Q b)%Q.
Proof.
  unfold Dadd. rewrite D2Q_norm. destruct a as [ma sa], b as [mb sb]; simpl.
  unfold D2Q, Qplus, Qeq; simpl.
  rewrite Pos2Z.inj_mul, !Z2Pos.id by apply pow10_pos.
  rewrite pow10_add. ring.
Qed.

Lemma D2Q_sub a b : (D2Q (Dsub a b) == D2Q a - D2Q b)%Q.
Proof.
  unfold Dsub. rewrite D2Q_norm. destruct a as [ma sa], b as [mb sb]; simpl.
  unfold D2Q, Qminus, Qplus, Qopp, Qeq; simpl.
  rewrite Pos2Z.inj_mul, !Z2Pos.id by apply pow10_pos.
  rewrite pow10_add. ring.
Qed.

Lemma D2Q_mul a b : (D2Q (Dmul a b) == D2Q a * D2Q b)%Q.
Proof.
  unfold Dmul. rewrite D2Q_norm. destruct a as [ma sa], b as [mb sb]; simpl.
  unfold D2Q, Qmult, Qeq; simpl.
  rewrite Pos2Z.inj_mul, !Z2Pos.id by apply pow10_pos.
  rewrite pow10_add. ring.
Qed.

Lemma Dcompare_spec a b : Dcompare a b = (D2Q a ?= D2Q b)%Q.
Proof.
  unfold Dcompare, Qcompare, D2Q; simpl. rewrite !den_pos. reflexivity.
Qed.

Lemma Dltb_spec a b : Dltb a b = true <-> (D2Q a < D2Q b)%Q.
Proof.
  unfold Dltb. rewrite Dcompare_spec, Qlt_alt.
  destruct (D2Q a ?= D2Q b)%Q; split; congruence.
Qed.

Lemma Dleb_spec a b : Dleb a b = true <-> (D2Q a <= D2Q b)%Q.
Proof.
  unfold Dleb. rewrite Dcompare_spec, Qle_alt.
  destruct (D2Q a ?= D2Q b)%Q; split; congruence.
Qed.

Lemma Deqb_spec a b : Deqb a b = true <-> (D2Q a == D2Q b)%Q.
Proof.
  unfold Deqb. rewrite Dcompare_spec, Qeq_alt.
  destruct (D2Q a ?= D2Q b)%Q; split; congruence.
Qed.

Lemma mant_zero_spec d : mant d = 0 <-> (D2Q d == 0)%Q.
Proof. unfold D2Q, Qeq; simpl. lia. Qed.

End decimals.

(** ** Digit strings *)
Section digits.

Lemma append_cons (x : ascii) (a b : string) : String x a +:+ b = String x (a +:+ b).
Proof. reflexivity. Qed.

Lemma append_nil_l (b : string) : "" +:+ b = b.
Proof. reflexivity. Qed.

Ltac sapp := cbn; rewrite ?append_cons, ?append_nil_l; cbn.

Lemma append_assoc (a b c : string) : (a +:+ b) +:+ c = a +:+ (b +:+ c).
Proof. induction a as [|x a IH]; sapp; congruence. Qed.

Lemma append_nil_r (a : string) : a +:+ "" = a.
Proof. induction a as [|x a IH]; sapp; congruence. Qed.

Lemma length_append (a b : string) :
  String.length (a +:+ b) = (String.length a + String.length b)%nat.
Proof. induction a as [|x a IH]; sapp; congruence. Qed.

Lemma digit_of_ascii_range c d : digit_of_ascii c = Some d -> 0 <= d <= 9.
Proof.
  unfold digit_of_ascii.
  destruct (Z.leb_spec 48 (Z.of_N (N_of_ascii c)));
    destruct (Z.leb_spec (Z.of_N (N_of_ascii c)) 57); simpl; intros [= <-]; lia.
Qed.

Lemma digit_of_ascii_char d : 0 <= d <= 9 -> digit_of_ascii (digit_char d) = Some d.
Proof.
  intros H. rewrite <- (Z2Nat.id d) by lia.
  assert (Hk : (Z.to_nat d < 10)%nat) by lia. revert Hk.
  generalize (Z.to_nat d). intros k Hk.
  do 10 (destruct k as [|k]; [reflexivity|]). lia.
Qed.

Lemma is_digit_char d : 0 <= d <= 9 -> is_digit (digit_char d) = true.
Proof. intros H. unfold is_digit. now rewrite digit_of_ascii_char. Qed.

Lemma is_digit_value c : is_digit c = true -> exists d, digit_of_ascii c = Some d.
Proof. unfold is_digit. destruct (digit_of_ascii c) as [d|]; [eauto | discriminate]. Qed.

Lemma all_digits_app s1 s2 :
  all_digits (s1 +:+ s2) = all_digits s1 && all_digits s2.
Proof.
  induction s1 as [|c s1 IH]; sapp; [reflexivity|]. now rewrite IH, andb_assoc.
Qed.

Lemma digits_value_app s1 : forall acc s2,
  all_digits s1 = true ->
  digits_value acc (s1 +:+ s2) = digits_value (digits_value acc s1) s2.
Proof.
  induction s1 as [|c s1 IH]; intros acc s2 H; sapp; [reflexivity|].
  cbn in H. apply andb_true_iff in H as [Hc Hs].
  destruct (is_digit_value c Hc) as [d ->]. now apply IH.
Qed.

Lemma digits_value_acc s : all_digits s = true ->
  forall acc, digits_value acc s = acc * pow10 (String.length s) + digits_value 0 s.
Proof.
  induction s as [|c s IH]; simpl; intros H acc.
  - unfold pow10; simpl. lia.
  - apply andb_true_iff in H as [Hc Hs]. destruct (is_digit_value c Hc) as [d ->].
    rewrite (IH Hs (10 * acc + d)), (IH Hs (10 * 0 + d)), pow10_S. ring.
Qed.

Lemma digits_value_bound s : all_digits s = true ->
  0 <= digits_value 0 s < pow10 (String.length s).
Proof.
  induction s as [|c s IH]; simpl; intros H.
  - unfold pow10; simpl. lia.
  - apply andb_true_iff in H as [Hc Hs]. destruct (is_digit_value c Hc) as [d Hd].
    rewrite Hd, (digits_value_acc s Hs), pow10_S.
    pose proof (digit_of_ascii_range c d Hd). specialize (IH Hs).
    pose proof (pow10_pos (String.length s)). nia.
Qed.

(** The digits printed for [n]: all but the last, then the last. *)
Lemma digits_acc_spec fuel : forall n acc,
  0 <= n < 2 ^ Z.of_nat (S fuel) ->
  exists ds, digits_acc fuel n acc = ds +:+ String (digit_char (n mod 10)) acc /\
             all_digits ds = true /\
             digits_value 0 ds = n / 10 /\
             (0 < n -> pow10 (String.length ds) <= n).
Proof.
  induction fuel as [|fuel IH]; intros n acc Hn.
  - exists "". cbn in Hn. sapp. repeat split.
    + symmetry. apply Z.div_small. lia.
    + intros ?. unfold pow10; simpl. lia.
  - cbn [digits_acc]. destruct (Z.ltb_spec n 10) as [Hlt|Hge].
    + exists "". sapp. repeat split.
      * symmetry. apply Z.div_small. lia.
      * intros ?. unfold pow10; simpl. lia.
    + assert (Hn' : 0 <= n / 10 < 2 ^ Z.of_nat (S fuel)).
      { split; [apply Z.div_pos; lia|].
        apply Z.div_lt_upper_bound; [lia|].
        rewrite Nat2Z.inj_succ, Z.pow_succ_r in Hn by lia. lia. }
      destruct (IH (n / 10) (String (digit_char (n mod 10)) acc) Hn')
        as (ds & Heq & Hall & Hval & Hlen).
      assert (Hd : 0 <= (n / 10) mod 10 <= 9)
        by (pose proof (Z.mod_pos_bound (n / 10) 10); lia).
      exists (ds +:+ String (digit_char ((n / 10) mod 10)) "").
      rewrite append_assoc. sapp. repeat split.
      * exact Heq.
      * rewrite all_digits_app, Hall. simpl. now rewrite is_digit_char.
      * rewrite digits_value_app by exact Hall. rewrite Hval. simpl.
        rewrite digit_of_ascii_char by exact Hd.
        pose proof (Z_div_mod_eq_full (n / 10) 10). lia.
      * intros _. rewrite length_append. simpl.
        replace (String.length ds + 1)%nat with (S (String.length ds)) by lia.
        rewrite pow10_S.
        assert (0 < n / 10) by (apply Z.div_str_pos; lia).
        pose proof (Z_div_mod_eq_full n 10). pose proof (Z.mod_pos_bound n 10).
        specialize (Hlen ltac:(lia)). lia.
Qed.

Lemma digits_of_Z_spec m : 0 <= m ->
  exists ds, digits_of_Z m = ds +:+ String (digit_char (m mod 10)) "" /\
             all_digits ds = true /\
             digits_value 0 ds = m / 10 /\
             (0 < m -> pow10 (String.length ds) <= m).
Proof.
  intros Hm. apply digits_acc_spec. split; [exact Hm|].
  destruct (Z.eq_dec m 0) as [->|Hnz]; [reflexivity|].
  rewrite Nat2Z.inj_succ, Z2Nat.id by apply Z.log2_nonneg.
  apply Z.log2_spec. lia.
Qed.

Lemma digits_of_Z_all m : 0 <= m -> all_digits (digits_of_Z m) = true.
Proof.
  intros Hm. destruct (digits_of_Z_spec m Hm) as (ds & -> & Hall & _).
  rewrite all_digits_app, Hall. simpl. rewrite is_digit_char; [reflexivity|].
  pose proof (Z.mod_pos_bound m 10). lia.
Qed.

Lemma digits_of_Z_value m : 0 <= m -> digits_value 0 (digits_of_Z m) = m.
Proof.
  intros Hm. destruct (digits_of_Z_spec m Hm) as (ds & -> & Hall & Hval & _).
  rewrite digits_value_app by exact Hall. rewrite Hval. simpl.
  rewrite digit_of_ascii_char by (pose proof (Z.mod_pos_bound m 10); lia).
  pose proof (Z_div_mod_eq_full m 10). lia.
Qed.

(** A positive number lies between the powers of ten that its number of
    digits gives. *)
Lemma digits_of_Z_length m : 0 < m ->
  pow10 (String.length (digits_of_Z m) - 1) <= m < pow10 (String.length (digits_of_Z m)).
Proof.
  intros Hm. split.
  - destruct (digits_of_Z_spec m ltac:(lia)) as (ds & -> & _ & _ & Hlen).
    rewrite length_append. simpl.
    replace (String.length ds + 1 - 1)%nat with (String.length ds) by lia. auto.
  - pose proof (digits_value_bound _ (digits_of_Z_all m ltac:(lia))) as H.
    rewrite digits_of_Z_value in H by lia. lia.
Qed.

Lemma length_zeros j : String.length (zeros j) = j.
Proof. induction j as [|j IH]; cbn; congruence. Qed.

Lemma zeros_snoc j : zeros j +:+ "0" = String "0" (zeros j).
Proof. induction j as [|j IH]; sapp; [reflexivity | now rewrite IH]. Qed.

Lemma rev_string_acc s : forall acc, rev_string acc s = rev_string "" s +:+ acc.
Proof.
  induction s as [|c s IH]; intros acc; cbn; [reflexivity|].
  rewrite (IH (String c acc)), (IH (String c "")), append_assoc. reflexivity.
Qed.

Lemma rev_string_app s1 s2 :
  rev_string "" (s1 +:+ s2) = rev_string "" s2 +:+ rev_string "" s1.
Proof.
  induction s1 as [|c s1 IH]; sapp; [now rewrite append_nil_r|].
  rewrite (rev_string_acc (s1 +:+ s2) (String c "")), IH,
    (rev_string_acc s1 (String c "")), append_assoc.
  reflexivity.
Qed.

Lemma rev_string_involutive s : rev_string "" (rev_string "" s) = s.
Proof.
  induction s as [|c s IH]; cbn; [reflexivity|].
  rewrite (rev_string_acc s (String c "")), rev_string_app, IH. reflexivity.
Qed.

Lemma rev_zeros j : rev_string "" (zeros j) = zeros j.
Proof.
  induction j as [|j IH]; cbn; [reflexivity|].
  now rewrite (rev_string_acc (zeros j) (String "0" "")), IH, zeros_snoc.
Qed.

Lemma drop_zeros_nonzero c r : c <> "0"%char -> drop_zeros (String c r) = String c r.
Proof.
  intros Hc. destruct c as [[] [] [] [] [] [] [] []]; try reflexivity. congruence.
Qed.

Lemma drop_zeros_spec t : exists j, t = zeros j +:+ drop_zeros t.
Proof.
  induction t as [|c t (j & IH)]; [exists O; reflexivity|].
  destruct (Ascii.eqb_spec c "0") as [->|Hc].
  - exists (S j). cbn. sapp. now rewrite <- IH.
  - exists O. now rewrite drop_zeros_nonzero.
Qed.

Lemma strip_spec s : exists j, s = strip_trailing_zeros s +:+ zeros j.
Proof.
  unfold strip_trailing_zeros.
  destruct (drop_zeros_spec (rev_string "" s)) as (j & Hj). exists j.
  rewrite <- (rev_zeros j), <- rev_string_app, <- Hj.
  now rewrite rev_string_involutive.
Qed.

Lemma strip_last_nonzero ds c :
  c <> "0"%char ->
  strip_trailing_zeros (ds +:+ String c "") = ds +:+ String c "".
Proof.
  intros Hc. unfold strip_trailing_zeros. rewrite rev_string_app.
  change (rev_string "" (String c "")) with (String c "").
  rewrite append_cons, append_nil_l, drop_zeros_nonzero by exact Hc.
  change (String c (rev_string "" ds)) with (String c "" +:+ rev_string "" ds).
  now rewrite rev_string_app, rev_string_involutive.
Qed.

Lemma is_digit_cases c : is_digit c = true -> exists d, 0 <= d <= 9 /\ c = digit_char d.
Proof.
  intros H. destruct (is_digit_value c H) as [d Hd]. exists d.
  split; [now apply digit_of_ascii_range in Hd|].
  unfold digit_of_ascii in Hd.
  destruct ((48 <=? Z.of_N (N_of_ascii c)) && (Z.of_N (N_of_ascii c) <=? 57)) eqn:E;
    [|discriminate].
  injection Hd as <-. unfold digit_char.
  replace (48 + (Z.of_N (N_of_ascii c) - 48)) with (Z.of_N (N_of_ascii c)) by lia.
  now rewrite N2Z.id, ascii_N_embedding.
Qed.

Lemma digit_char_nonzero d : 0 < d <= 9 -> digit_char d <> "0"%char.
Proof.
  intros H E. apply (f_equal digit_of_ascii) in E.
  rewrite digit_of_ascii_char in E by lia. cbn in E. injection E. lia.
Qed.

(** A digit is neither a space nor a sign. *)
Lemma digit_head c r : is_digit c = true ->
  trim_left (String c r) = String c r /\ take_sign (String c r) = (false, String c r).
Proof.
  intros H. destruct (is_digit_cases c H) as (d & Hd & ->).
  rewrite <- (Z2Nat.id d) by lia.
  assert (Hk : (Z.to_nat d < 10)%nat) by lia. revert Hk.
  generalize (Z.to_nat d). intros k Hk.
  do 10 (destruct k as [|k]; [split; reflexivity|]). lia.
Qed.

Lemma span_digits_app ds : forall rest,
  all_digits ds = true ->
  (rest = "" \/ exists c r, rest = String c r /\ is_digit c = false) ->
  span_digits (ds +:+ rest) = (ds, rest).
Proof.
  induction ds as [|c ds IH]; intros rest Hall Hrest; sapp.
  - destruct Hrest as [->|(c & r & -> & Hc)]; cbn; [reflexivity | now rewrite Hc].
  - cbn in Hall. apply andb_true_iff in Hall as [Hc Hds].
    rewrite Hc, (IH rest Hds Hrest). reflexivity.
Qed.

(** [parseInt] on a string that starts with digits reads exactly these. *)
Lemma parseInt_string_digits ds rest :
  ds <> "" -> all_digits ds = true ->
  (rest = "" \/ exists c r, rest = String c r /\ is_digit c = false) ->
  parseInt_string (ds +:+ rest) = Fin (of_Z (digits_value 0 ds)).
Proof.
  intros Hne Hall Hrest. unfold parseInt_string.
  destruct ds as [|c ds]; [contradiction|].
  pose proof Hall as Hall'. cbn in Hall'. apply andb_true_iff in Hall' as [Hc _].
  rewrite append_cons. destruct (digit_head c (ds +:+ rest) Hc) as [-> ->].
  rewrite <- append_cons, (span_digits_app _ rest Hall Hrest). reflexivity.
Qed.

Lemma take_drop n : forall s, take n s +:+ drop n s = s.
Proof.
  induction n as [|n IH]; intros [|c s]; cbn; sapp; try reflexivity.
  now rewrite IH.
Qed.

Lemma length_take n : forall s,
  (n <= String.length s)%nat -> String.length (take n s) = n.
Proof.
  induction n as [|n IH]; intros [|c s] H; cbn in *; try reflexivity; try lia.
  rewrite IH; lia.
Qed.

Lemma length_drop n : forall s,
  (n <= String.length s)%nat -> String.length (drop n s) = (String.length s - n)%nat.
Proof.
  induction n as [|n IH]; intros [|c s] H; cbn in *; try reflexivity; try lia.
  rewrite IH; lia.
Qed.

Lemma norm_aux_canonical s : forall m, canonical (norm_aux m s).
Proof.
  induction s as [|s IH]; intros m; cbn.
  - now left.
  - destruct (Z.eqb_spec (m mod 10) 0); [apply IH | now right].
Qed.

Lemma norm_canonical d : canonical (norm d).
Proof. apply norm_aux_canonical. Qed.

Lemma norm_aux_trunc s : forall m, Dtrunc (norm_aux m s) = Dtrunc (mkDec m s).
Proof.
  induction s as [|s IH]; intros m; cbn; [reflexivity|].
  destruct (Z.eqb_spec (m mod 10) 0) as [Hm|Hm]; [|reflexivity].
  rewrite IH. unfold Dtrunc; cbn. rewrite pow10_S.
  pose proof (Z_div_mod_eq_full m 10) as E. rewrite Hm, Z.add_0_r in E.
  rewrite E at 2. rewrite Z.quot_mul_cancel_l; [reflexivity | | lia].
  pose proof (pow10_pos s). lia.
Qed.

Lemma Dtrunc_norm d : Dtrunc (norm d) = Dtrunc d.
Proof. destruct d. apply norm_aux_trunc. Qed.

Lemma norm_sign d : (0 < mant (norm d) <-> 0 < mant d) /\ (mant (norm d) = 0 <-> mant d = 0).
Proof.
  pose proof (D2Q_norm d) as E. unfold D2Q, Qeq in E; cbn in E.
  rewrite !den_pos in E.
  pose proof (pow10_pos (scale d)). pose proof (pow10_pos (scale (norm d))).
  split; split; intros; nia.
Qed.

(** A canonical positive decimal printed without exponent: the digits of
    its integer part, then nothing or the decimal point. *)
Lemma pos_to_string_shape d :
  0 < mant d -> canonical d ->
  -6 < Z.of_nat (String.length (digits_of_Z (mant d))) - Z.of_nat (scale d) <= 21 ->
  exists ds rest,
    pos_to_string d = ds +:+ rest /\ ds <> "" /\ all_digits ds = true /\
    (rest = "" \/ exists c r, rest = String c r /\ is_digit c = false) /\
    digits_value 0 ds = mant d / pow10 (scale d).
Proof.
  intros Hm Hcan Hn. unfold pos_to_string.
  set (ds := digits_of_Z (mant d)) in *.
  set (n := Z.of_nat (String.length ds) - Z.of_nat (scale d)) in *.
  pose proof (digits_of_Z_all (mant d) ltac:(lia)) as Hall. fold ds in Hall.
  pose proof (digits_of_Z_value (mant d) ltac:(lia)) as Hval. fold ds in Hval.
  assert (Hne : ds <> "").
  { destruct (digits_of_Z_spec (mant d) ltac:(lia)) as (ds0 & E & _). fold ds in E.
    rewrite E. destruct ds0; discriminate. }
  destruct (Nat.eq_dec (scale d) 0%nat) as [Hs|Hs].
  - (* an integer: the digits, with the trailing zeros put back *)
    destruct (strip_spec ds) as (j & Hj).
    assert (Hlen : String.length ds = (String.length (strip_trailing_zeros ds) + j)%nat)
      by (rewrite Hj at 1; now rewrite length_append, length_zeros).
    assert (Hcond : (Z.of_nat (String.length (strip_trailing_zeros ds)) <=? n) && (n <=? 21) = true)
      by (apply andb_true_iff; split; apply Z.leb_le; lia).
    rewrite Hcond.
    replace (Z.to_nat (n - Z.of_nat (String.length (strip_trailing_zeros ds)))) with j by lia.
    rewrite <- Hj. exists ds, "". rewrite append_nil_r. repeat split; auto.
    rewrite Hval, Hs. unfold pow10; cbn. now rewrite Z.div_1_r.
  - (* a fraction: no trailing zero to strip *)
    destruct Hcan as [Hcan|Hcan]; [contradiction|].
    assert (Hstrip : strip_trailing_zeros ds = ds).
    { destruct (digits_of_Z_spec (mant d) ltac:(lia)) as (ds0 & E & _). fold ds in E.
      rewrite E. apply strip_last_nonzero, digit_char_nonzero.
      pose proof (Z.mod_pos_bound (mant d) 10). lia. }
    rewrite Hstrip.
    assert (Hc1 : (Z.of_nat (String.length ds) <=? n) && (n <=? 21) = false)
      by (apply andb_false_iff; left; apply Z.leb_gt; lia).
    rewrite Hc1.
    pose proof (digits_of_Z_length (mant d) Hm) as [_ Hub]. fold ds in Hub.
    destruct (Z.ltb_spec 0 n) as [Hpos|Hnonpos].
    + (* the integer part is the first n digits *)
      assert (Hc2 : (n <=? 21) = true) by (apply Z.leb_le; lia).
      rewrite Hc2. cbn [andb].
      assert (Hle : (Z.to_nat n <= String.length ds)%nat) by lia.
      assert (Hta : all_digits (take (Z.to_nat n) ds) = true /\
                    all_digits (drop (Z.to_nat n) ds) = true).
      { apply andb_true_iff. rewrite <- all_digits_app, take_drop. exact Hall. }
      destruct Hta as [Ht Hd].
      exists (take (Z.to_nat n) ds), ("." +:+ drop (Z.to_nat n) ds).
      split; [reflexivity|]. split; [|split; [exact Ht|split]].
      * intros E. apply (f_equal String.length) in E.
        rewrite length_take in E by exact Hle. cbn in E. lia.
      * right. exists "."%char, (drop (Z.to_nat n) ds). split; reflexivity.
      * apply Z.div_unique with (r := digits_value 0 (drop (Z.to_nat n) ds)).
        -- left. pose proof (digits_value_bound _ Hd) as Hb.
           rewrite length_drop in Hb by exact Hle.
           replace (String.length ds - Z.to_nat n)%nat with (scale d) in Hb by lia.
           exact Hb.
        -- rewrite <- Hval at 1. rewrite <- (take_drop (Z.to_nat n) ds) at 1.
           rewrite digits_value_app by exact Ht.
           rewrite (digits_value_acc _ Hd), length_drop by exact Hle.
           replace (String.length ds - Z.to_nat n)%nat with (scale d) by lia.
           ring.
    + (* below one: the integer part is the leading zero *)
      assert (Hc2 : (-6 <? n) && (n <=? 0) = true)
        by (apply andb_true_iff; split; [apply Z.ltb_lt | apply Z.leb_le]; lia).
      rewrite Hc2. cbn [andb].
      exists "0", ("." +:+ zeros (Z.to_nat (- n)) +:+ ds).
      split; [reflexivity|]. split; [discriminate|]. split; [reflexivity|]. split.
      * right. eexists _, _. split; reflexivity.
      * cbn. symmetry. apply Z.div_small. split; [lia|].
        apply Z.lt_le_trans with (1 := Hub).
        unfold pow10. apply Z.pow_le_mono_r; lia.
Qed.

(** The position of the decimal point of a positive decimal in the plain
    range. *)
Lemma plain_range_point d :
  0 < mant d ->
  ((1 # 1000000) <= D2Q d)%Q -> (D2Q d < inject_Z (10 ^ 21))%Q ->
  -6 < Z.of_nat (String.length (digits_of_Z (mant d))) - Z.of_nat (scale d) <= 21.
Proof.
  intros Hm Hlo Hhi.
  pose proof (digits_of_Z_length (mant d) Hm) as [Hlb Hub].
  set (L := String.length (digits_of_Z (mant d))) in *.
  unfold Qle, Qlt, D2Q in Hlo, Hhi; cbn [Qnum Qden inject_Z] in Hlo, Hhi.
  rewrite den_pos in Hlo, Hhi. rewrite Z.mul_1_l in Hlo. rewrite Z.mul_1_r in Hhi.
  change (Z.pos 1000000) with (10 ^ 6) in Hlo.
  unfold pow10 in *. split.
  - assert (H : 10 ^ Z.of_nat (scale d) < 10 ^ (Z.of_nat L + 6)).
    { rewrite Z.pow_add_r by lia. nia. }
    apply Z.pow_lt_mono_r_iff in H; lia.
  - assert (H : 10 ^ Z.of_nat (L - 1) < 10 ^ (21 + Z.of_nat (scale d))).
    { rewrite Z.pow_add_r by lia. nia. }
    apply Z.pow_lt_mono_r_iff in H; lia.
Qed.

Lemma parseInt_string_minus ds rest :
  ds <> "" -> all_digits ds = true ->
  (rest = "" \/ exists c r, rest = String c r /\ is_digit c = false) ->
  parseInt_string ("-" +:+ ds +:+ rest) = Fin (of_Z (- digits_value 0 ds)).
Proof.
  intros Hne Hall Hrest. unfold parseInt_string.
  change (trim_left ("-" +:+ ds +:+ rest)) with (String "-" (ds +:+ rest)).
  cbn [take_sign]. rewrite (span_digits_app _ rest Hall Hrest).
  destruct ds; [contradiction | reflexivity].
Qed.

(** Where a number prints without exponent, [parseInt] truncates it. *)
Lemma parseInt_truncates d :
  prints_plain d -> parseInt (Fin d) = Fin (of_Z (Dtrunc d)).
Proof.
  intros Hp. unfold parseInt, num_to_string. rewrite <- (Dtrunc_norm d).
  assert (Hp' : prints_plain (norm d))
    by (unfold prints_plain in *; now rewrite D2Q_norm).
  pose proof (norm_canonical d) as Hcan.
  clear Hp. revert Hp' Hcan. generalize (norm d). clear d. intros d Hp Hcan.
  cbv zeta.
  destruct (Z.eqb_spec (mant d) 0) as [Hz|Hnz].
  - unfold Dtrunc. rewrite Hz. reflexivity.
  - destruct Hp as [Hp|[Hlo Hhi]]; [apply mant_zero_spec in Hp; contradiction|].
    destruct (Z.ltb_spec (mant d) 0) as [Hneg|Hpos].
    + assert (Hm : 0 < mant (Dopp d)) by (cbn; lia).
      assert (Habs : Qabs (D2Q d) = D2Q (Dopp d)).
      { unfold D2Q, Qabs; cbn. f_equal. lia. }
      rewrite Habs in Hlo, Hhi.
      destruct (pos_to_string_shape (Dopp d) Hm) as (ds & rest & -> & Hne & Hall & Hrest & Hval).
      { destruct Hcan as [Hs|Hmod]; [now left | right]. cbn.
        rewrite Z.mod_opp_l_nz; try lia.
        pose proof (Z.mod_pos_bound (mant d) 10). lia. }
      { now apply plain_range_point. }
      rewrite parseInt_string_minus by assumption.
      rewrite Hval. unfold Dtrunc. cbn [Dopp mant scale].
      do 2 f_equal. pose proof (pow10_pos (scale d)).
      rewrite <- Z.quot_div_nonneg by lia.
      rewrite Z.quot_opp_l by lia. lia.
    + assert (Hm : 0 < mant d) by lia.
      assert (Habs : Qabs (D2Q d) = D2Q d).
      { unfold D2Q, Qabs; cbn. f_equal. lia. }
      rewrite Habs in Hlo, Hhi.
      destruct (pos_to_string_shape d Hm Hcan) as (ds & rest & -> & Hne & Hall & Hrest & Hval).
      { now apply plain_range_point. }
      rewrite parseInt_string_digits by assumption.
      rewrite Hval. unfold Dtrunc. pose proof (pow10_pos (scale d)).
      now rewrite Z.quot_div_nonneg by lia.
Qed.

End digits.

(** ** The sufficiency test of the scheduler *)
Section sufficiency.

Import ledgerState ledgerNotifications.

Lemma js_gt_num x y :
  js_gt (VNum x) (VNum y) = true <->
  exists a b, x = Fin a /\ y = Fin b /\ (D2Q b < D2Q a)%Q.
Proof.
  unfold js_gt, js_lt; simpl.
  destruct x as [|a], y as [|b]; simpl;
    try (split; [discriminate | intros (? & ? & ? & ? & _); discriminate]).
  rewrite Dltb_spec. split.
  - intros H. exists a, b. auto.
  - intros (a' & b' & [= <-] & [= <-] & H). exact H.
Qed.







End sufficiency.

(** ** Media keys and durations *)
Section media.

Import ledgerUtil.

(** C8, as the code has it: for a provider type and a media id that are
    both present, the media key is the lower-cased provider name, the
    separator "_" and the id; when either is null the key is null. *)
Theorem getMediaKey_spec :
  (forall id type : string,
      getMediaKey (Some id) (Some type) = Some (toLowerCase type +:+ "_" +:+ id)) /\
  (forall type, getMediaKey None type = None) /\
  (forall id, getMediaKey id None = None).
Proof.
  split; [reflexivity|]. split; [reflexivity|]. intros [id|]; reflexivity.
Qed.

(** C8 as stated fails: the separator is not ":".  The key of the unit test
    is "youtube_kLiLOkzLetE". *)
Lemma getMediaKey_not_colon :
  getMediaKey (Some "kLiLOkzLetE") (Some ledgerMediaProviders.YOUTUBE)
    = Some "youtube_kLiLOkzLetE" /\
  getMediaKey (Some "kLiLOkzLetE") (Some ledgerMediaProviders.YOUTUBE)
    <> Some (toLowerCase ledgerMediaProviders.YOUTUBE +:+ ":" +:+ "kLiLOkzLetE").
Proof. split; [reflexivity | discriminate]. Qed.

Lemma getYouTubeDuration_multiple_times :
  getYouTubeDuration (query "11.338,21.339,25.000" "21.339,25.000,26.100")
    = Fin (of_Z 14762).
Proof. vm_compute. reflexivity. Qed.

Lemma getYouTubeDuration_single_time :
  getYouTubeDuration (query "11.338" "21.339") = Fin (of_Z 10001).
Proof. vm_compute. reflexivity. Qed.

Lemma getYouTubeDuration_null : getYouTubeDuration None = Fin (of_Z 0).
Proof. reflexivity. Qed.

Lemma getYouTubeDuration_missing_field (data : Query) :
  data !! "st" = None \/ data !! "et" = None ->
  getYouTubeDuration (Some data) = Fin (of_Z 0).
Proof.
  intros [H|H]; unfold getYouTubeDuration; rewrite H;
    [|destruct (data !! "st")]; reflexivity.
Qed.

Lemma getYouTubeDuration_mismatch (data : Query) (st et : string) :
  data !! "st" = Some st -> data !! "et" = Some et ->
  length (split "," st) <> length (split "," et) ->
  getYouTubeDuration (Some data) = Fin (of_Z 0).
Proof.
  intros Hs He Hlen. unfold getYouTubeDuration. rewrite Hs, He.
  destruct (Nat.eqb_spec (length (split "," st)) (length (split "," et)));
    [contradiction | reflexivity].
Qed.

Lemma Dtrunc_spec d :
  ((0 <= D2Q d)%Q ->
   (inject_Z (Dtrunc d) <= D2Q d)%Q /\ (D2Q d < inject_Z (Dtrunc d) + 1)%Q) /\
  ((D2Q d <= 0)%Q ->
   (inject_Z (Dtrunc d) - 1 < D2Q d)%Q /\ (D2Q d <= inject_Z (Dtrunc d))%Q).
Proof.
  unfold Dtrunc, D2Q, Qle, Qlt; cbn. rewrite !den_pos, !Z.mul_1_r.
  pose proof (pow10_pos (scale d)) as Hp.
  pose proof (Z.quot_rem' (mant d) (pow10 (scale d))) as E.
  split; intros Hs.
  - pose proof (Z.rem_bound_pos (mant d) (pow10 (scale d)) Hs Hp). nia.
  - pose proof (Z.rem_bound_pos_neg (mant d) (pow10 (scale d)) Hp ltac:(lia)). nia.
Qed.

Lemma sum_segments_spec (ss es : list string) (starts ends : list Dec) :
  parsed ss starts -> parsed es ends ->
  forall t, exists r,
    sum_segments (Fin t) ss es = Fin r /\
    (D2Q r == D2Q t + segments_total starts ends)%Q.
Proof.
  intros Hs. revert es ends.
  induction Hs as [|s d ss starts Hd Hs IH]; intros es ends He t.
  - exists t. cbn. split; [reflexivity | ring].
  - destruct He as [|e d' es ends Hd' He].
    + exists t. cbn. split; [reflexivity | ring].
    + cbn [sum_segments segments_total]. rewrite Hd, Hd'. cbn [nsub nadd lift2].
      destruct (IH es ends He (Dadd t (Dsub d' d))) as (r & Hr & Hq).
      exists r. split; [exact Hr|]. rewrite Hq, D2Q_add, D2Q_sub. ring.
Qed.

(** In the exact arithmetic of the embedding the millisecond value is a
    thousand times the watch time; where it prints without exponent,
    [getYouTubeDuration] is its truncation. *)
Lemma getYouTubeDuration_plain (data : Query) (st et : string) (starts ends : list Dec) :
  data !! "st" = Some st -> data !! "et" = Some et ->
  parsed (split "," st) starts -> parsed (split "," et) ends ->
  length starts = length ends ->
  exists ms,
    segments_ms st et = Fin ms /\
    (D2Q ms == inject_Z 1000 * segments_total starts ends)%Q /\
    (prints_plain ms -> getYouTubeDuration (Some data) = Fin (of_Z (Dtrunc ms))).
Proof.
  intros Hst Het Hs He Hlen.
  destruct (sum_segments_spec _ _ _ _ Hs He (of_Z 0)) as (r & Hr & Hq).
  exists (Dmul r (of_Z 1000)). unfold segments_ms. rewrite Hr.
  split; [reflexivity|]. split.
  - rewrite D2Q_mul, Hq, !D2Q_of_Z. ring.
  - intros Hp. unfold getYouTubeDuration. rewrite Hst, Het.
    assert (Hl : length (split "," st) = length (split "," et)).
    { rewrite (Forall2_length _ _ _ Hs), (Forall2_length _ _ _ He). exact Hlen. }
    rewrite Hl, Nat.eqb_refl. cbn [negb]. rewrite Hr. cbn [nmul lift2].
    now apply parseInt_truncates.
Qed.

(** C5: the sum of the segments is converted to milliseconds and then to an
    integer by [parseInt], which reads the decimal string of the number, so
    the result is not the truncation when that string has an exponent.  For
    a segment of a tenth of a nanosecond the sum is 1e-7 ms, printed "1e-7":
    the result is 1, not 0.  For a segment of 1e18 s the sum is 1e21 ms,
    printed "1e+21": the result is 1 again. *)
Theorem getYouTubeDuration_parseInt_exponent :
  segments_ms "0" "0.0000000001" = Fin (mkDec 1 7) /\
  num_to_string (segments_ms "0" "0.0000000001") = "1e-7" /\
  getYouTubeDuration (query "0" "0.0000000001") = Fin (of_Z 1) /\
  segments_ms "0" "1000000000000000000" = Fin (of_Z (10 ^ 21)) /\
  num_to_string (segments_ms "0" "1000000000000000000") = "1e+21" /\
  getYouTubeDuration (query "0" "1000000000000000000") = Fin (of_Z 1).
Proof. vm_compute. repeat split; reflexivity. Qed.

End media.

(** ** The wallet status *)
Section wallet_status.

Import ledgerUtil.

(** C10: in a created, error-free wallet with nothing unconfirmed, a
    balance of 5 and a target of 1, the test compares the string
    "0.00" followed by "5", that is the number 0.005, with 0.9: the status is
    insufficientFundsStatus although 5 + 0 >= 0.9 * 1. *)
Theorem walletStatus_concatenates (ledgerData : LedgerData) :
  truthy (get (props ledgerData) "error") = false ->
  truthy (get (props ledgerData) "created") = true ->
  get (props ledgerData) "unconfirmed" = VInt 0 ->
  get (props ledgerData) "balance" = VInt 5 ->
  get (props ledgerData) "bat" = VInt 1 ->
  walletStatus ledgerData = {| id := "insufficientFundsStatus"; args := None |} /\
  js_add (VStr (toFixed (Fin (of_Z 0)) 2)) (VInt 5) = VStr "0.005" /\
  ToNumber (VStr "0.005") = Fin (mkDec 5 3) /\
  ((9 # 10) * D2Q (of_Z 1) <= D2Q (of_Z 5) + D2Q (of_Z 0))%Q.
Proof.
  intros He Hc Hu Hb Ht. unfold walletStatus.
  rewrite He, Hc, Hu, Hb, Ht. repeat split. vm_compute. discriminate.
Qed.

Lemma walletStatus_concatenates_witness :
  walletStatus (walletData (VInt 0) (VInt 5) (VInt 1))
    = {| id := "insufficientFundsStatus"; args := None |} /\
  js_add (VStr (toFixed (Fin (of_Z 0)) 2)) (VInt 5) = VStr "0.005" /\
  ToNumber (VStr "0.005") = Fin (mkDec 5 3) /\
  ((9 # 10) * D2Q (of_Z 1) <= D2Q (of_Z 5) + D2Q (of_Z 0))%Q.
Proof.
  apply (walletStatus_concatenates (walletData (VInt 0) (VInt 5) (VInt 1)));
    reflexivity.
Defined.

End wallet_status.

(** ** Publisher eligibility *)
Section eligibility.

Import ledgerState siteSettingsState ledgerUtil.

Variable getHostPattern : string -> string.

Local Abbreviation blockedP := (ledgerUtil.blockedP getHostPattern).
Local Abbreviation stickyP := (ledgerUtil.stickyP getHostPattern).
Local Abbreviation contributeP := (ledgerUtil.contributeP getHostPattern).
Local Abbreviation visibleP := (ledgerUtil.visibleP getHostPattern).

Lemma js_and_bool (x : Value) (b : bool) :
  truthy (js_and x (VBool b)) = truthy x && b.
Proof. unfold js_and. destruct (truthy x) eqn:E; [reflexivity | now rewrite E]. Qed.

Lemma js_or_truthy (x y : Value) : truthy (js_or x y) = truthy x || truthy y.
Proof. unfold js_or. destruct (truthy x) eqn:E; [now rewrite E | reflexivity]. Qed.

(** [x && b] is a boolean as soon as a falsy [x] can only be [false]. *)
Lemma js_and_VBool (x : Value) (b : bool) :
  (truthy x = false -> x = VBool false) ->
  js_and x (VBool b) = VBool (truthy x && b).
Proof.
  intros H. unfold js_and. destruct (truthy x); [reflexivity | now apply H].
Qed.

Lemma js_or_VBool_falsy (x : Value) (b : bool) :
  truthy (js_or x (VBool b)) = false -> js_or x (VBool b) = VBool false.
Proof.
  unfold js_or. destruct (truthy x) eqn:E; [congruence|].
  destruct b; [discriminate | reflexivity].
Qed.

(** [contributeP] always answers with a boolean. *)
Lemma contributeP_bool (state : State) (key : string) :
  contributeP state key =
  VBool ((truthy (stickyP state key)
          || negb (strict_eq (getPublisherOption state key "exclude") (VBool true)))
         && eligibleP state key && negb (blockedP state key)).
Proof.
  unfold contributeP.
  set (x := js_or _ _).
  rewrite (js_and_VBool (js_and x _)).
  - rewrite js_and_bool. unfold x. now rewrite js_or_truthy.
  - rewrite js_and_bool. intros H. rewrite js_and_VBool.
    + now rewrite H.
    + apply js_or_VBool_falsy.
Qed.

(** C6: [contributeP] is true exactly when (sticky or the exclude option is
    not strictly true) and eligible and not blocked; [stickyP] answers with
    the site setting ledgerPayments when there is one, otherwise with the
    inverted exclude option when there is one, otherwise with true. *)
Theorem contributeP_spec (state : State) (key : string) :
  (contributeP state key = VBool true <->
     (truthy (stickyP state key) = true \/
      strict_eq (getPublisherOption state key "exclude") (VBool true) = false) /\
     eligibleP state key = true /\ blockedP state key = false) /\
  (forall b : bool,
      getSettingsProp state (getHostPattern key) "ledgerPayments" = VBool b ->
      stickyP state key = VBool b) /\
  (forall e : bool,
      is_nullish (getSettingsProp state (getHostPattern key) "ledgerPayments") = true ->
      getPublisherOption state key "exclude" = VBool e ->
      stickyP state key = VBool (negb e)) /\
  (getSettingsProp state (getHostPattern key) "ledgerPayments" = VUndef ->
   is_nullish (getPublisherOption state key "exclude") = true ->
   stickyP state key = VBool true).
Proof.
  split; [split | split; [|split]].
  - rewrite contributeP_bool. intros [= H].
    apply andb_true_iff in H as [H Hb]. apply andb_true_iff in H as [H He].
    apply orb_true_iff in H. rewrite negb_true_iff in H, Hb. tauto.
  - intros (Hs & He & Hb). rewrite contributeP_bool, He, Hb.
    destruct Hs as [-> | ->]; [reflexivity | now rewrite orb_true_r].
  - intros b H. unfold stickyP. rewrite H. now destruct b.
  - intros e Hn H. unfold stickyP. rewrite Hn, H. now destruct e.
  - intros Hu Hn. unfold stickyP. now rewrite Hu, Hn.
Qed.

Lemma js_ge_num (d : Dec) (v : Value) :
  js_ge (VNum (Fin d)) v = true <->
  exists m, ToNumber (ToPrimitive v) = Fin m /\ (D2Q m <= D2Q d)%Q.
Proof.
  unfold js_ge, js_compare_lt. cbn [ToPrimitive].
  cbn [ToNumber ncompare_lt]. destruct (ToNumber (ToPrimitive v)) as [|m].
  - split; [discriminate | intros (? & ? & _); discriminate].
  - rewrite negb_true_iff. split.
    + intros H. exists m. split; [reflexivity|].
      apply Qnot_lt_le. rewrite <- Dltb_spec. congruence.
    + intros (m' & [= <-] & H). apply not_true_is_false.
      rewrite Dltb_spec. now apply Qle_not_lt.
Qed.

(** C7: with the score under the configured scorekeeper and the thresholds
    unchanged, a publisher that is eligible stays eligible when its duration
    and its number of visits grow. *)
Theorem eligibleP_monotone (state state' : State) (key : string) (d d' v v' : Dec) :
  getSynopsisOption state' "scorekeeper" = getSynopsisOption state "scorekeeper" ->
  getSynopsisOption state' "minPublisherDuration"
    = getSynopsisOption state "minPublisherDuration" ->
  getSynopsisOption state' "minPublisherVisits"
    = getSynopsisOption state "minPublisherVisits" ->
  get_key (scores (getPublisher state' key)) (getSynopsisOption state "scorekeeper")
    = get_key (scores (getPublisher state key)) (getSynopsisOption state "scorekeeper") ->
  duration (getPublisher state key) = VNum (Fin d) ->
  duration (getPublisher state' key) = VNum (Fin d') ->
  visits (getPublisher state key) = VNum (Fin v) ->
  visits (getPublisher state' key) = VNum (Fin v') ->
  (D2Q d <= D2Q d')%Q -> (D2Q v <= D2Q v')%Q ->
  eligibleP state key = true -> eligibleP state' key = true.
Proof.
  intros Hk Hmd Hmv Hs Hd Hd' Hv Hv' Ld Lv. unfold eligibleP.
  rewrite Hk, Hmd, Hmv, Hs, Hd, Hd', Hv, Hv'. rewrite !andb_true_iff, !js_ge_num.
  intros [[Hsc (m & Hm & Lm)] (n & Hn & Ln)]. repeat split; [exact Hsc | |].
  - exists m. split; [exact Hm | now apply Qle_trans with (D2Q d)].
  - exists n. split; [exact Hn | now apply Qle_trans with (D2Q v)].
Qed.

Lemma eligibleP_setSynopsisOption (state : State) (key : string) (value : Value) :
  eligibleP (setSynopsisOption state "showOnlyVerified" value) key = eligibleP state key.
Proof.
  unfold eligibleP, getSynopsisOption, getPublisher, setSynopsisOption; cbn.
  now rewrite !lookup_insert_ne by discriminate.
Qed.

Lemma blockedP_setSynopsisOption (state : State) (key prop : string) (value : Value) :
  blockedP (setSynopsisOption state prop value) key = blockedP state key.
Proof. reflexivity. Qed.

(** C9, as the code has it: when the showOnlyVerified synopsis option is
    unset, [visibleP] derives it from the PAYMENTS_ALLOW_NON_VERIFIED setting
    and answers with the derived value: eligible, and (the setting is on or
    the publisher is verified), and not blocked.  Setting the option changes
    no other part of the state. *)
Theorem visibleP_unset (getSetting : Settings) (state : State) (key : string) :
  is_nullish (getSynopsisOption state "showOnlyVerified") = true ->
  let derived := getSetting PAYMENTS_ALLOW_NON_VERIFIED in
  let state' := setSynopsisOption state "showOnlyVerified" derived in
  visibleP getSetting state key =
    VBool (eligibleP state key
           && (truthy derived || truthy (getPublisherOption state key "verified"))
           && negb (blockedP state key)) /\
  visibleP_locals getSetting state = (derived, state') /\
  getSynopsisOption state' "showOnlyVerified" = derived /\
  (forall prop, prop <> "showOnlyVerified" ->
                getSynopsisOption state' prop = getSynopsisOption state prop) /\
  ledger_info state' = ledger_info state /\
  synopsis_publishers state' = synopsis_publishers state /\
  siteSettings state' = siteSettings state /\
  firstRunTimestamp state' = firstRunTimestamp state.
Proof.
  intros Hn derived state'. repeat split.
  - unfold visibleP, visibleP_locals. rewrite Hn. fold derived. fold state'.
    unfold state'. rewrite eligibleP_setSynopsisOption, blockedP_setSynopsisOption.
    unfold getPublisherOption.
    set (verified := get (options (getPublisher state key)) "verified").
    destruct (eligibleP state key), (blockedP state key),
      (truthy derived) eqn:Ed, (truthy verified) eqn:Ev;
      unfold js_and, js_or, js_not; cbn [truthy negb andb orb];
      rewrite ?Ed, ?Ev; cbn [truthy negb andb orb]; rewrite ?Ev; reflexivity.
  - unfold visibleP_locals. now rewrite Hn.
  - unfold state', getSynopsisOption, setSynopsisOption; cbn.
    now rewrite lookup_insert_eq.
  - intros prop Hp. unfold state', getSynopsisOption, setSynopsisOption; cbn.
    now rewrite lookup_insert_ne by congruence.
Qed.

End eligibility.

Section eligibility_samples.

Import ledgerState siteSettingsState ledgerUtil.

Lemma contributeP_spec_witness :
  contributeP hostPattern (synopsisWith (publisherWith 9000 2)) "brave.com" = VBool true /\
  stickyP hostPattern (synopsisWith (publisherWith 9000 2)) "brave.com" = VBool true.
Proof.
  destruct (contributeP_spec hostPattern (synopsisWith (publisherWith 9000 2)) "brave.com")
    as (Hc & _ & _ & Hs).
  split.
  - apply Hc. repeat split; left; reflexivity.
  - apply Hs; reflexivity.
Defined.

Lemma eligibleP_monotone_witness :
  eligibleP (synopsisWith (publisherWith 12000 5)) "brave.com" = true.
Proof.
  apply (eligibleP_monotone (synopsisWith (publisherWith 9000 2))
           (synopsisWith (publisherWith 12000 5)) "brave.com"
           (of_Z 9000) (of_Z 12000) (of_Z 2) (of_Z 5));
    try reflexivity; unfold Qle; simpl; lia.
Defined.

Lemma visibleP_unset_witness :
  visibleP hostPattern (allowNonVerified true) (synopsisWith (publisherWith 9000 2)) "brave.com"
    = VBool true /\
  getSynopsisOption
    (snd (visibleP_locals (allowNonVerified true) (synopsisWith (publisherWith 9000 2))))
    "showOnlyVerified" = VBool true.
Proof.
  destruct (visibleP_unset hostPattern (allowNonVerified true)
              (synopsisWith (publisherWith 9000 2)) "brave.com" eq_refl)
    as (Hv & Hl & Hg & _).
  split.
  - rewrite Hv. reflexivity.
  - rewrite Hl. exact Hg.
Defined.

(** C9 as stated fails: [visibleP] returns its boolean and nothing else, so
    the state the caller holds is the one it passed.  Here the option is
    unset in that state; a call made while the setting is on answers true,
    and a later call on the same state, made after the setting went off,
    answers false: the option is derived afresh.  On a state where the first
    value had been written the later call would still answer true. *)
Lemma visibleP_no_writeback :
  let state := synopsisWith (publisherWith 9000 2) in
  getSynopsisOption state "showOnlyVerified" = VNull /\
  visibleP hostPattern (allowNonVerified true) state "brave.com" = VBool true /\
  visibleP hostPattern (allowNonVerified false) state "brave.com" = VBool false /\
  visibleP hostPattern (allowNonVerified false)
    (setSynopsisOption state "showOnlyVerified" (VBool true)) "brave.com" = VBool true.
Proof. repeat split. Qed.

End eligibility_samples.

(** ** The scheduler *)
Section scheduler_properties.

Import ledgerState ledgerNotifications.

Variable translation : string -> string.
Variable delayNotificationTryPayments : Value.

Lemma nsub_int a b : nsub (Fin (of_Z a)) (Fin (of_Z b)) = Fin (of_Z (a - b)).
Proof. unfold nsub, lift2, Dsub, norm, of_Z; cbn. now rewrite !Z.mul_1_r. Qed.

Lemma nadd_int a b : nadd (Fin (of_Z a)) (Fin (of_Z b)) = Fin (of_Z (a + b)).
Proof. unfold nadd, lift2, Dadd, norm, of_Z; cbn. now rewrite !Z.mul_1_r. Qed.

Lemma nmul_int a b : nmul (Fin (of_Z a)) (Fin (of_Z b)) = Fin (of_Z (a * b)).
Proof. reflexivity. Qed.

Lemma js_sub_int a b : js_sub (VInt a) (VInt b) = Fin (of_Z (a - b)).
Proof. apply nsub_int. Qed.

Lemma js_add_int a b : js_add (VInt a) (VInt b) = VInt (a + b).
Proof. unfold js_add, VInt; cbn [ToPrimitive ToNumber]. now rewrite nadd_int. Qed.

Lemma js_lt_int a b : js_lt (VInt a) (VInt b) = (a <? b).
Proof.
  unfold js_lt, js_compare_lt, VInt, of_Z; cbn.
  unfold Dltb, Dcompare; cbn. rewrite !Z.mul_1_r.
  unfold Z.ltb. now destruct (a ?= b).
Qed.

Lemma js_gt_int a b : js_gt (VInt a) (VInt b) = (b <? a).
Proof. apply js_lt_int. Qed.

Lemma js_not_int a : js_not (VInt a) = (a =? 0).
Proof. unfold js_not, VInt, truthy, of_Z; cbn. now rewrite negb_involutive. Qed.

Lemma bind_ret {A B} (a : A) (k : A -> M B) w : bind (ret a) k w = k a w.
Proof. reflexivity. Qed.

Lemma bind_getSetting {B} key (k : Value -> M B) w :
  bind (getSetting key) k w = k (settings w key) w.
Proof. reflexivity. Qed.

Lemma bind_getTime {B} (k : Value -> M B) w :
  bind getTime k w =
  k (VInt (clock w (reads w)))
    {| settings := settings w; clock := clock w; reads := S (reads w);
       paymentDone := paymentDone w; dispatched := dispatched w |}.
Proof. reflexivity. Qed.

Lemma bind_bind {A B C} (m : M A) (f : A -> M B) (g : B -> M C) w :
  bind (bind m f) g w = bind m (fun a => bind (f a) g) w.
Proof. unfold bind. destruct (m w) as [[a|e] w']; reflexivity. Qed.

Lemma shouldShowNotificationReviewPublishers_elapsed (w : World) (now : Z) :
  (forall k, clock w k = now) ->
  elapsed (settings w PAYMENTS_NOTIFICATION_RECONCILE_SOON_TIMESTAMP) now ->
  exists w1, shouldShowNotificationReviewPublishers w = (Normal true, w1) /\
             same_but_reads w w1.
Proof.
  intros Hclk He. unfold shouldShowNotificationReviewPublishers.
  rewrite bind_getSetting.
  destruct (js_not (settings w _)) eqn:Hn.
  - exists w. split; [reflexivity|]. repeat split; auto.
  - destruct He as [He|(t & Ht & Hlt)]; [congruence|].
    rewrite bind_getTime, Ht, Hclk, js_gt_int.
    destruct (Z.ltb_spec t now); [|lia].
    eexists. split; [reflexivity|]. repeat split; cbn; auto.
Qed.

Lemma shouldShowNotificationAddFunds_elapsed (w : World) (now : Z) :
  (forall k, clock w k = now) ->
  elapsed (settings w PAYMENTS_NOTIFICATION_ADD_FUNDS_TIMESTAMP) now ->
  exists w1, shouldShowNotificationAddFunds w = (Normal true, w1) /\
             same_but_reads w w1.
Proof.
  intros Hclk He. unfold shouldShowNotificationAddFunds.
  rewrite bind_getSetting.
  destruct (js_not (settings w _)) eqn:Hn.
  - exists w. split; [reflexivity|]. repeat split; auto.
  - destruct He as [He|(t & Ht & Hlt)]; [congruence|].
    rewrite bind_getTime, Ht, Hclk, js_gt_int.
    destruct (Z.ltb_spec t now); [|lia].
    eexists. split; [reflexivity|]. repeat split; cbn; auto.
Qed.

(** C1, as the code has it: on a snapshot with a reconcile stamp, less than
    a day before it, with funds that pass the scheduler's own strict test
    and a review timestamp that is absent or strictly before the current
    instant, one run of showEnabledNotifications dispatches exactly the new
    review timestamp, reconcileStamp + (reconcileFrequency - 2) days, and one
    ReviewPublishers notification. *)
Theorem showEnabledNotifications_review
    (state : State) (w : World) (rs freq now : Z) :
  getInfoProp state "reconcileStamp" = VInt rs -> rs <> 0 ->
  getInfoProp state "reconcileFrequency" = VInt freq ->
  (forall k, clock w k = now) ->
  rs - now < miliseconds.day ->
  truthy (sufficientBalanceToReconcile state) = true ->
  elapsed (settings w PAYMENTS_NOTIFICATION_RECONCILE_SOON_TIMESTAMP) now ->
  let nextTime := VInt (rs + (freq - 2) * miliseconds.day) in
  let w' := snd (showEnabledNotifications translation state w) in
  fst (showEnabledNotifications translation state w) = Normal tt /\
  dispatched w' =
    (dispatched w ++
     [changeSetting PAYMENTS_NOTIFICATION_RECONCILE_SOON_TIMESTAMP nextTime;
      showNotification (reviewPublishersNotification translation)])%list /\
  settings w' =
    update_setting (settings w) PAYMENTS_NOTIFICATION_RECONCILE_SOON_TIMESTAMP nextTime.
Proof.
  intros Hrs Hnz Hfreq Hclk Hwin Hsuf Hsnooze nextTime.
  cut (exists W, showEnabledNotifications translation state w = (Normal tt, W) /\
                 dispatched W =
                   (dispatched w ++
                    [changeSetting PAYMENTS_NOTIFICATION_RECONCILE_SOON_TIMESTAMP nextTime;
                     showNotification (reviewPublishersNotification translation)])%list /\
                 settings W =
                   update_setting (settings w)
                     PAYMENTS_NOTIFICATION_RECONCILE_SOON_TIMESTAMP nextTime).
  { intros (W & -> & HdW & HsW). cbn. auto. }
  unfold showEnabledNotifications. rewrite Hrs, Hfreq, js_not_int.
  destruct (Z.eqb_spec rs 0) as [|_]; [contradiction|].
  rewrite bind_getTime, Hclk, js_sub_int. fold (VInt (rs - now)).
  rewrite js_lt_int. destruct (Z.ltb_spec (rs - now) miliseconds.day) as [_|]; [|lia].
  rewrite Hsuf, js_sub_int, nmul_int. fold (VInt ((freq - 2) * miliseconds.day)).
  rewrite js_add_int. fold nextTime.
  match goal with |- context [bind _ _ ?w0] => set (w0' := w0) end.
  destruct (shouldShowNotificationReviewPublishers_elapsed w0' now)
    as (w1 & Hshow & Hs & Hc & Hp & Hd & _); [exact Hclk | exact Hsnooze |].
  unfold bind at 1. rewrite Hshow.
  unfold showReviewPublishers, bind, dispatch; cbn.
  eexists. split; [reflexivity|]. cbn. rewrite Hd, Hs. split; [|reflexivity].
  now rewrite <- app_assoc.
Qed.

(** C2, as the code has it: on a snapshot with a reconcile stamp, less than
    a day before it, with funds that fail the scheduler's own test and an
    add-funds timestamp that is absent or strictly before the current
    instant, one run of showEnabledNotifications dispatches exactly the new
    add-funds timestamp, now + 3 days, and one AddFunds notification. *)
Theorem showEnabledNotifications_addFunds
    (state : State) (w : World) (rs now : Z) :
  getInfoProp state "reconcileStamp" = VInt rs -> rs <> 0 ->
  (forall k, clock w k = now) ->
  rs - now < miliseconds.day ->
  truthy (sufficientBalanceToReconcile state) = false ->
  elapsed (settings w PAYMENTS_NOTIFICATION_ADD_FUNDS_TIMESTAMP) now ->
  let nextTime := VInt (now + 3 * miliseconds.day) in
  let w' := snd (showEnabledNotifications translation state w) in
  fst (showEnabledNotifications translation state w) = Normal tt /\
  dispatched w' =
    (dispatched w ++
     [changeSetting PAYMENTS_NOTIFICATION_ADD_FUNDS_TIMESTAMP nextTime;
      showNotification (addFundsNotification translation)])%list /\
  settings w' =
    update_setting (settings w) PAYMENTS_NOTIFICATION_ADD_FUNDS_TIMESTAMP nextTime.
Proof.
  intros Hrs Hnz Hclk Hwin Hsuf Hsnooze nextTime.
  cut (exists W, showEnabledNotifications translation state w = (Normal tt, W) /\
                 dispatched W =
                   (dispatched w ++
                    [changeSetting PAYMENTS_NOTIFICATION_ADD_FUNDS_TIMESTAMP nextTime;
                     showNotification (addFundsNotification translation)])%list /\
                 settings W =
                   update_setting (settings w)
                     PAYMENTS_NOTIFICATION_ADD_FUNDS_TIMESTAMP nextTime).
  { intros (W & -> & HdW & HsW). cbn. auto. }
  unfold showEnabledNotifications. rewrite Hrs, js_not_int.
  destruct (Z.eqb_spec rs 0) as [|_]; [contradiction|].
  rewrite bind_getTime, Hclk, js_sub_int. fold (VInt (rs - now)).
  rewrite js_lt_int. destruct (Z.ltb_spec (rs - now) miliseconds.day) as [_|]; [|lia].
  rewrite Hsuf.
  match goal with |- context [bind _ _ ?w0] => set (w0' := w0) end.
  destruct (shouldShowNotificationAddFunds_elapsed w0' now)
    as (w1 & Hshow & Hs & Hc & Hp & Hd & _); [exact Hclk | exact Hsnooze |].
  unfold bind at 1. rewrite Hshow.
  unfold showAddFunds. rewrite bind_getTime, Hc. cbn [clock w0'].
  rewrite Hclk, js_add_int. change nextAddFundsTime with (3 * miliseconds.day).
  fold nextTime. unfold bind, dispatch; cbn.
  eexists. split; [reflexivity|]. cbn. rewrite Hd, Hs. split; [|reflexivity].
  now rewrite <- app_assoc.
Qed.

(** Handlers never touch the clock, and only read it forward. *)
Lemma handle_clock (e : Event) (w : World) :
  let w' := snd (handle translation delayNotificationTryPayments e w) in
  clock w' = clock w /\ (reads w <= reads w')%nat.
Proof.
  destruct e as [state | message buttonIndex activeWindow]; exec; branch;
    split; (reflexivity || lia).
Qed.

(** One handler, started while the timestamp of a kind holds an instant
    that no clock reading of the handler passes: the timestamp stays, and
    nothing of that kind is shown. *)
Lemma handle_quiet (kind : Kind) (e : Event) (w : World) (T : Z) :
  distinct_messages translation ->
  settings w (timestampOf kind) = VInt T -> T <> 0 ->
  (forall k, (reads w <= k < reads (snd (handle translation delayNotificationTryPayments e w)))%nat ->
             clock w k <= T) ->
  let w' := snd (handle translation delayNotificationTryPayments e w) in
  settings w' (timestampOf kind) = VInt T /\
  exists new, dispatched w' = (dispatched w ++ new)%list /\
              Forall (fun a => ~ emits translation kind a) new.
Proof.
  intros (D1 & D2 & D3) Hset Hnz Hclk. revert Hclk.
  destruct kind, e as [state | message buttonIndex activeWindow];
    cbn [timestampOf] in Hset |- *; exec;
    branch; intros Hclk;
    try match goal with
      | H : js_not (settings w _) = true |- _ =>
          rewrite Hset, js_not_int in H; apply Z.eqb_eq in H; contradiction
      | H : js_gt (VInt (clock w ?k)) (settings w _) = true |- _ =>
          rewrite Hset, js_gt_int in H; apply Z.ltb_lt in H;
          specialize (Hclk k ltac:(lia)); lia
      end;
    (split;
     [ cbn; auto
     | rewrite <- ?app_assoc; eexists; split;
       [ first [ reflexivity | symmetry; apply app_nil_r ]
       | cbn; repeat constructor; cbn; unfold messageOf in *; auto; congruence ] ]).
Qed.

Lemma run_clock (events : list Event) : forall w : World,
  let w' := run translation delayNotificationTryPayments events w in
  clock w' = clock w /\ (reads w <= reads w')%nat.
Proof.
  induction events as [|e events IH]; intros w; cbn.
  - split; [reflexivity | lia].
  - destruct (handle_clock e w) as [Hc Hr].
    destruct (IH (snd (handle translation delayNotificationTryPayments e w))) as [Hc' Hr'].
    split; [congruence | lia].
Qed.

(** C4: once the timestamp of a kind (ReviewPublishers, AddFunds) holds an
    instant T, no sequence of timer ticks and user responses whose clock
    readings all stay at or before T shows a notification of that kind, and
    the timestamp is still T afterwards. *)
Theorem cooldown (kind : Kind) (events : list Event) : forall (w : World) (T : Z),
  distinct_messages translation ->
  settings w (timestampOf kind) = VInt T -> T <> 0 ->
  (forall k, (reads w <= k < reads (run translation delayNotificationTryPayments events w))%nat ->
             clock w k <= T) ->
  let w' := run translation delayNotificationTryPayments events w in
  settings w' (timestampOf kind) = VInt T /\
  exists new, dispatched w' = (dispatched w ++ new)%list /\
              Forall (fun a => ~ emits translation kind a) new.
Proof.
  induction events as [|e events IH]; intros w T HD Hset Hnz Hclk; cbn in *.
  - split; [exact Hset|]. exists []. split; [now rewrite app_nil_r | constructor].
  - set (w1 := snd (handle translation delayNotificationTryPayments e w)) in *.
    destruct (handle_clock e w) as [Hc Hr]. fold w1 in Hc, Hr.
    destruct (run_clock events w1) as [_ Hr'].
    destruct (handle_quiet kind e w T HD Hset Hnz) as (Hset1 & new1 & Hd1 & Hq1).
    { intros k Hk. apply Hclk. fold w1 in Hk. lia. }
    fold w1 in Hset1, Hd1.
    destruct (IH w1 T HD Hset1 Hnz) as (Hset2 & new2 & Hd2 & Hq2).
    { intros k Hk. rewrite Hc. apply Hclk. lia. }
    split; [exact Hset2|]. exists (new1 ++ new2)%list. split.
    + now rewrite Hd2, Hd1, app_assoc.
    + apply Forall_app. split; assumption.
Qed.

End scheduler_properties.

Section scheduler_witnesses.

Import ledgerState ledgerNotifications.

Lemma showEnabledNotifications_review_witness :
  let state := walletAt (VInt 1000000000) (VInt 30) (VInt 10) (VInt 0) (VInt 10) in
  let w := worldAt 999999000 (settingsWith VNull VNull) in
  let nextTime := VInt (1000000000 + (30 - 2) * miliseconds.day) in
  let w' := snd (showEnabledNotifications (fun key => key) state w) in
  fst (showEnabledNotifications (fun key => key) state w) = Normal tt /\
  dispatched w' =
    (dispatched w ++
     [changeSetting PAYMENTS_NOTIFICATION_RECONCILE_SOON_TIMESTAMP nextTime;
      showNotification (reviewPublishersNotification (fun key => key))])%list /\
  settings w' =
    update_setting (settings w) PAYMENTS_NOTIFICATION_RECONCILE_SOON_TIMESTAMP nextTime.
Proof.
  intros state w nextTime w'.
  assert (H1 : getInfoProp state "reconcileStamp" = VInt 1000000000) by reflexivity.
  assert (H2 : getInfoProp state "reconcileFrequency" = VInt 30) by reflexivity.
  assert (H3 : forall k, clock w k = 999999000) by reflexivity.
  assert (H4 : 1000000000 - 999999000 < miliseconds.day) by reflexivity.
  assert (H5 : truthy (sufficientBalanceToReconcile state) = true) by reflexivity.
  assert (H6 : elapsed (settings w PAYMENTS_NOTIFICATION_RECONCILE_SOON_TIMESTAMP) 999999000)
    by (left; reflexivity).
  exact (showEnabledNotifications_review (fun key => key) state w 1000000000 30 999999000
           H1 ltac:(lia) H2 H3 H4 H5 H6).
Defined.

Lemma showEnabledNotifications_addFunds_witness :
  let state := walletAt (VInt 1000000000) (VInt 30) (VInt 5) (VInt 0) (VInt 10) in
  let w := worldAt 999999000 (settingsWith VNull (VInt 999000000)) in
  let nextTime := VInt (999999000 + 3 * miliseconds.day) in
  let w' := snd (showEnabledNotifications (fun key => key) state w) in
  fst (showEnabledNotifications (fun key => key) state w) = Normal tt /\
  dispatched w' =
    (dispatched w ++
     [changeSetting PAYMENTS_NOTIFICATION_ADD_FUNDS_TIMESTAMP nextTime;
      showNotification (addFundsNotification (fun key => key))])%list /\
  settings w' =
    update_setting (settings w) PAYMENTS_NOTIFICATION_ADD_FUNDS_TIMESTAMP nextTime.
Proof.
  intros state w nextTime w'.
  assert (H1 : getInfoProp state "reconcileStamp" = VInt 1000000000) by reflexivity.
  assert (H3 : forall k, clock w k = 999999000) by reflexivity.
  assert (H4 : 1000000000 - 999999000 < miliseconds.day) by reflexivity.
  assert (H5 : truthy (sufficientBalanceToReconcile state) = false) by reflexivity.
  assert (H6 : elapsed (settings w PAYMENTS_NOTIFICATION_ADD_FUNDS_TIMESTAMP) 999999000)
    by (right; exists 999000000; split; [reflexivity | lia]).
  exact (showEnabledNotifications_addFunds (fun key => key) state w 1000000000 999999000
           H1 ltac:(lia) H3 H4 H5 H6).
Defined.

Lemma cooldown_witness :
  let state := walletAt (VInt 1000000000) (VInt 30) (VInt 10) (VInt 0) (VInt 10) in
  let events :=
    [Tick state; Response (VStr "reconciliationNotification") (VInt 1) (Some 7); Tick state] in
  let w := worldAt 999999000 (settingsWith (VInt 3419200000) VNull) in
  let w' := run (fun key => key) (VInt 0) events w in
  settings w' (timestampOf ReviewPublishers) = VInt 3419200000 /\
  exists new, dispatched w' = (dispatched w ++ new)%list /\
              Forall (fun a => ~ emits (fun key => key) ReviewPublishers a) new.
Proof.
  intros state events w w'.
  assert (HD : distinct_messages (fun key => key)) by (repeat split; discriminate).
  assert (H1 : settings w (timestampOf ReviewPublishers) = VInt 3419200000) by reflexivity.
  assert (H3 : forall k,
             (reads w <= k < reads (run (fun key => key) (VInt 0) events w))%nat ->
             clock w k <= 3419200000) by (intros k _; cbn [clock w worldAt]; lia).
  exact (cooldown (fun key => key) (VInt 0) ReviewPublishers events w 3419200000
           HD H1 ltac:(lia) H3).
Defined.

(** C1 as stated fails, in two places.  A review timestamp equal to the
    current instant is not a future one, yet it holds the notification back:
    with the stamp 1000 ms away and funds of 10 for a target of 10, the tick
    dispatches nothing.  And funds equal to 0.9 * target are sufficient for
    the claim but not for the scheduler: with funds of 9 for a target of 10
    and no timestamp at all, the tick shows AddFunds, not ReviewPublishers. *)
Lemma showEnabledNotifications_review_at_now :
  let now := 999999000 in
  let state := walletAt (VInt 1000000000) (VInt 30) (VInt 10) (VInt 0) (VInt 10) in
  let w := worldAt now (settingsWith (VInt now) VNull) in
  let state9 := walletAt (VInt 1000000000) (VInt 30) (VInt 9) (VInt 0) (VInt 10) in
  let w9 := worldAt now (settingsWith VNull VNull) in
  (getInfoProp state "reconcileStamp" = VInt 1000000000 /\
   1000000000 - now < miliseconds.day /\
   ((9 # 10) * inject_Z 10 <= inject_Z 10 + inject_Z 0)%Q /\
   settings w PAYMENTS_NOTIFICATION_RECONCILE_SOON_TIMESTAMP = VInt now /\
   (forall k, clock w k = now) /\
   showEnabledNotifications (fun key => key) state w
     = (Normal tt, {| settings := settings w; clock := clock w; reads := 2;
                      paymentDone := paymentDone w; dispatched := [] |})) /\
  (getInfoProp state9 "reconcileStamp" = VInt 1000000000 /\
   ((9 # 10) * inject_Z 10 <= inject_Z 9 + inject_Z 0)%Q /\
   js_not (settings w9 PAYMENTS_NOTIFICATION_RECONCILE_SOON_TIMESTAMP) = true /\
   dispatched (snd (showEnabledNotifications (fun key => key) state9 w9)) =
     [changeSetting PAYMENTS_NOTIFICATION_ADD_FUNDS_TIMESTAMP
        (VInt (now + 3 * miliseconds.day));
      showNotification (addFundsNotification (fun key => key))]).
Proof.
  repeat split; try reflexivity; vm_compute; discriminate.
Qed.

(** C2 as stated fails: an add-funds timestamp equal to the current instant
    is not a future one, yet it holds the notification back.  With the stamp
    1000 ms away and funds of 5 for a target of 10, the tick dispatches
    nothing. *)
Lemma showEnabledNotifications_addFunds_at_now :
  let now := 999999000 in
  let state := walletAt (VInt 1000000000) (VInt 30) (VInt 5) (VInt 0) (VInt 10) in
  let w := worldAt now (settingsWith VNull (VInt now)) in
  getInfoProp state "reconcileStamp" = VInt 1000000000 /\
  1000000000 - now < miliseconds.day /\
  (inject_Z 5 + inject_Z 0 < (9 # 10) * inject_Z 10)%Q /\
  settings w PAYMENTS_NOTIFICATION_ADD_FUNDS_TIMESTAMP = VInt now /\
  (forall k, clock w k = now) /\
  showEnabledNotifications (fun key => key) state w
    = (Normal tt, {| settings := settings w; clock := clock w; reads := 2;
                     paymentDone := paymentDone w; dispatched := [] |}).
Proof.
  repeat split; reflexivity.
Qed.

End scheduler_witnesses.

(** ** More on the scheduler *)
Section scheduler_more.

Import ledgerState ledgerNotifications.

Variable translation : string -> string.
Variable delayNotificationTryPayments : Value.

(** X1: Between two days and one day before the reconcile stamp, with sufficient
    funds and a review timestamp that is absent or past, one run of
    showEnabledNotifications dispatches exactly the new review timestamp,
    now + 1 day, and one ReviewPublishers notification. *)
Theorem showEnabledNotifications_second_window
    (state : State) (w : World) (rs now : Z) :
  getInfoProp state "reconcileStamp" = VInt rs -> rs <> 0 ->
  (forall k, clock w k = now) ->
  miliseconds.day <= rs - now < 2 * miliseconds.day ->
  truthy (sufficientBalanceToReconcile state) = true ->
  elapsed (settings w PAYMENTS_NOTIFICATION_RECONCILE_SOON_TIMESTAMP) now ->
  let nextTime := VInt (now + miliseconds.day) in
  let w' := snd (showEnabledNotifications translation state w) in
  fst (showEnabledNotifications translation state w) = Normal tt /\
  dispatched w' =
    (dispatched w ++
     [changeSetting PAYMENTS_NOTIFICATION_RECONCILE_SOON_TIMESTAMP nextTime;
      showNotification (reviewPublishersNotification translation)])%list /\
  settings w' =
    update_setting (settings w) PAYMENTS_NOTIFICATION_RECONCILE_SOON_TIMESTAMP nextTime.
Proof.
  intros Hrs Hnz Hclk Hwin Hsuf Hsnooze nextTime.
  cut (exists W, showEnabledNotifications translation state w = (Normal tt, W) /\
                 dispatched W =
                   (dispatched w ++
                    [changeSetting PAYMENTS_NOTIFICATION_RECONCILE_SOON_TIMESTAMP nextTime;
                     showNotification (reviewPublishersNotification translation)])%list /\
                 settings W =
                   update_setting (settings w)
                     PAYMENTS_NOTIFICATION_RECONCILE_SOON_TIMESTAMP nextTime).
  { intros (W & -> & HdW & HsW). cbn. auto. }
  unfold showEnabledNotifications. rewrite Hrs, js_not_int.
  destruct (Z.eqb_spec rs 0) as [|_]; [contradiction|].
  rewrite bind_getTime, Hclk, js_sub_int. fold (VInt (rs - now)).
  rewrite js_lt_int. destruct (Z.ltb_spec (rs - now) miliseconds.day) as [|_]; [lia|].
  rewrite bind_getTime. cbn [clock]. rewrite Hclk, js_sub_int. fold (VInt (rs - now)).
  rewrite js_lt_int.
  destruct (Z.ltb_spec (rs - now) (2 * miliseconds.day)) as [_|]; [|lia].
  rewrite Hsuf.
  match goal with |- context [bind _ _ ?w0] => set (w0' := w0) end.
  destruct (shouldShowNotificationReviewPublishers_elapsed w0' now)
    as (w1 & Hshow & Hs & Hc & Hp & Hd & _); [exact Hclk | exact Hsnooze |].
  unfold bind at 1. rewrite Hshow.
  rewrite bind_getTime, Hc. cbn [clock w0']. rewrite Hclk, js_add_int. fold nextTime.
  unfold showReviewPublishers, bind, dispatch; cbn.
  eexists. split; [reflexivity|]. cbn. rewrite Hd, Hs. split; [|reflexivity].
  now rewrite <- app_assoc.
Qed.

(** X2: A run of showEnabledNotifications dispatches nothing and changes no
    setting when there is no reconcile stamp, when the stamp is two days
    away or more, or when it is a day away or more and the funds are
    insufficient: the AddFunds notification is kept for the last day. *)
Theorem showEnabledNotifications_quiet (state : State) (w : World) (now : Z) :
  (forall k, clock w k = now) ->
  js_not (getInfoProp state "reconcileStamp") = true \/
  (exists rs, getInfoProp state "reconcileStamp" = VInt rs /\
              (2 * miliseconds.day <= rs - now \/
               miliseconds.day <= rs - now /\
               truthy (sufficientBalanceToReconcile state) = false)) ->
  let w' := snd (showEnabledNotifications translation state w) in
  fst (showEnabledNotifications translation state w) = Normal tt /\
  dispatched w' = dispatched w /\ settings w' = settings w.
Proof.
  intros Hclk H. unfold showEnabledNotifications.
  destruct H as [H|(rs & Hrs & H)].
  - rewrite H. cbn. auto.
  - rewrite Hrs, js_not_int. destruct (Z.eqb_spec rs 0) as [|_]; [cbn; auto|].
    rewrite bind_getTime, Hclk, js_sub_int. fold (VInt (rs - now)).
    rewrite js_lt_int.
    assert (Hday : miliseconds.day <= rs - now)
      by (destruct H as [H|[H _]]; [change miliseconds.day with 86400000 in *|]; lia).
    destruct (Z.ltb_spec (rs - now) miliseconds.day) as [|_]; [lia|].
    rewrite bind_getTime. cbn [clock]. rewrite Hclk, js_sub_int. fold (VInt (rs - now)).
    rewrite js_lt_int.
    destruct (Z.ltb_spec (rs - now) (2 * miliseconds.day)) as [Hlt|_].
    + destruct H as [H|[_ H]]; [lia|]. rewrite H. cbn. auto.
    + cbn. auto.
Qed.

(** X3: Whatever the state and the settings, one timer tick dispatches nothing,
    or the TryPayments notification alone, or a new review timestamp followed
    by the ReviewPublishers notification, or a new add-funds timestamp
    followed by the AddFunds notification: never two notifications, never a
    timestamp without its notification. *)
Theorem onInterval_one_notification (state : State) (w : World) :
  let w' := snd (onInterval translation delayNotificationTryPayments state w) in
  fst (onInterval translation delayNotificationTryPayments state w) = Normal tt /\
  exists new,
    dispatched w' = (dispatched w ++ new)%list /\
    (new = [] \/
     new = [showNotification (tryPaymentsNotification translation)] \/
     (exists nextTime,
         new = [changeSetting PAYMENTS_NOTIFICATION_RECONCILE_SOON_TIMESTAMP nextTime;
                showNotification (reviewPublishersNotification translation)]) \/
     (exists nextTime,
         new = [changeSetting PAYMENTS_NOTIFICATION_ADD_FUNDS_TIMESTAMP nextTime;
                showNotification (addFundsNotification translation)])).
Proof.
  exec; branch;
    (split; [reflexivity|]);
    rewrite <- ?app_assoc; eexists;
    (split; [first [reflexivity | symmetry; apply app_nil_r]|]);
    cbn; eauto 6.
Qed.

(** X4: With payments disabled, one timer tick shows the TryPayments
    notification exactly when it was never dismissed and the time since the
    first run has reached the configured delay; it changes no setting. *)
Theorem onInterval_tryPayments (state : State) (w : World) (now firstRun delay : Z) :
  truthy (settings w PAYMENTS_ENABLED) = false ->
  (forall k, clock w k = now) ->
  firstRunTimestamp state = VInt firstRun ->
  delayNotificationTryPayments = VInt delay ->
  let w' := snd (onInterval translation delayNotificationTryPayments state w) in
  dispatched w' =
    (dispatched w ++
     if js_not (settings w PAYMENTS_NOTIFICATION_TRY_PAYMENTS_DISMISSED)
        && (delay <=? now - firstRun)
     then [showNotification (tryPaymentsNotification translation)] else [])%list /\
  settings w' = settings w.
Proof.
  intros Hen Hclk Hfirst Hdelay. unfold onInterval.
  rewrite bind_getSetting, Hen. unfold showDisabledNotifications.
  rewrite bind_getSetting.
  destruct (js_not (settings w PAYMENTS_NOTIFICATION_TRY_PAYMENTS_DISMISSED)); cbn [andb].
  - rewrite bind_getTime, Hclk, Hfirst, Hdelay, js_sub_int.
    fold (VInt (now - firstRun)). rewrite js_lt_int.
    destruct (Z.ltb_spec (now - firstRun) delay), (Z.leb_spec delay (now - firstRun));
      try lia; cbn; rewrite ?app_nil_r; auto.
  - cbn. rewrite app_nil_r. auto.
Qed.

(** A property of worlds that every handler keeps, while dispatching only
    actions of a given sort, holds along every run. *)
Lemma run_invariant (I : World -> Prop) (P : Action -> Prop) :
  (forall e w, I w ->
     I (snd (handle translation delayNotificationTryPayments e w)) /\
     exists new,
       dispatched (snd (handle translation delayNotificationTryPayments e w))
         = (dispatched w ++ new)%list /\ Forall P new) ->
  forall events w, I w ->
    I (run translation delayNotificationTryPayments events w) /\
    exists new,
      dispatched (run translation delayNotificationTryPayments events w)
        = (dispatched w ++ new)%list /\ Forall P new.
Proof.
  intros Hstep events. induction events as [|e events IH]; intros w Hw; cbn.
  - split; [exact Hw|]. exists []. split; [now rewrite app_nil_r | constructor].
  - destruct (Hstep e w Hw) as (Hw1 & new1 & Hd1 & Hp1).
    destruct (IH _ Hw1) as (Hw2 & new2 & Hd2 & Hp2).
    split; [exact Hw2|]. exists (new1 ++ new2)%list. split.
    + now rewrite Hd2, Hd1, app_assoc.
    + apply Forall_app. split; assumption.
Qed.

(** One handler keeps a recorded dismissal and does not show TryPayments. *)
Lemma handle_keeps_dismissed (e : Event) (w : World) :
  distinct_messages translation ->
  truthy (settings w PAYMENTS_NOTIFICATION_TRY_PAYMENTS_DISMISSED) = true ->
  let w' := snd (handle translation delayNotificationTryPayments e w) in
  truthy (settings w' PAYMENTS_NOTIFICATION_TRY_PAYMENTS_DISMISSED) = true /\
  exists new, dispatched w' = (dispatched w ++ new)%list /\
              Forall (fun a => ~ shows_message (text_tryPayments translation) a) new.
Proof.
  intros (D1 & D2 & D3) Hw.
  destruct e as [state | message buttonIndex activeWindow]; exec;
    unfold js_not; branch.
  all: try match goal with
         | H : negb (truthy ?x) = true, H' : truthy ?x = true |- _ =>
             rewrite H' in H; discriminate
         end.
  all: split; [cbn; auto|].
  all: rewrite <- ?app_assoc; eexists;
    (split; [first [reflexivity | symmetry; apply app_nil_r]|]).
  all: cbn; repeat constructor.
  all: intros (n & Hs & Hm); cbn in Hs; try discriminate.
  all: injection Hs as <-; cbn in Hm; congruence.
Qed.

(** X5: Once the TryPayments notification is recorded as dismissed, no sequence
    of timer ticks and user responses shows it again, and it stays
    dismissed. *)
Theorem tryPayments_dismissed_forever (events : list Event) (w : World) :
  distinct_messages translation ->
  truthy (settings w PAYMENTS_NOTIFICATION_TRY_PAYMENTS_DISMISSED) = true ->
  let w' := run translation delayNotificationTryPayments events w in
  truthy (settings w' PAYMENTS_NOTIFICATION_TRY_PAYMENTS_DISMISSED) = true /\
  exists new, dispatched w' = (dispatched w ++ new)%list /\
              Forall (fun a => ~ shows_message (text_tryPayments translation) a) new.
Proof.
  intros HD Hw.
  apply (run_invariant
           (fun w => truthy (settings w PAYMENTS_NOTIFICATION_TRY_PAYMENTS_DISMISSED) = true));
    [|exact Hw].
  intros e w0 Hw0. exact (handle_keeps_dismissed e w0 HD Hw0).
Qed.

(** One handler keeps the notifications turned off and shows nothing. *)
Lemma handle_keeps_off (e : Event) (w : World) :
  truthy (settings w PAYMENTS_ENABLED) = true /\
  truthy (settings w PAYMENTS_NOTIFICATIONS) = false ->
  let w' := snd (handle translation delayNotificationTryPayments e w) in
  (truthy (settings w' PAYMENTS_ENABLED) = true /\
   truthy (settings w' PAYMENTS_NOTIFICATIONS) = false) /\
  exists new, dispatched w' = (dispatched w ++ new)%list /\ silent new.
Proof.
  intros [He Hn].
  destruct e as [state | message buttonIndex activeWindow]; exec;
    rewrite ?He, ?Hn; branch.
  all: split; [cbn; auto|].
  all: rewrite <- ?app_assoc; eexists;
    (split; [first [reflexivity | symmetry; apply app_nil_r]|]).
  all: cbn; repeat constructor.
Qed.

(** X6: While payments are enabled and the notifications are turned off, no
    sequence of timer ticks and user responses shows any notification, and
    both settings stay as they are. *)
Theorem notifications_off_silent (events : list Event) (w : World) :
  truthy (settings w PAYMENTS_ENABLED) = true ->
  truthy (settings w PAYMENTS_NOTIFICATIONS) = false ->
  let w' := run translation delayNotificationTryPayments events w in
  (truthy (settings w' PAYMENTS_ENABLED) = true /\
   truthy (settings w' PAYMENTS_NOTIFICATIONS) = false) /\
  exists new, dispatched w' = (dispatched w ++ new)%list /\ silent new.
Proof.
  intros He Hn.
  apply (run_invariant
           (fun w => truthy (settings w PAYMENTS_ENABLED) = true /\
                     truthy (settings w PAYMENTS_NOTIFICATIONS) = false));
    [exact (fun e w0 => handle_keeps_off e w0) | split; assumption].
Qed.

Lemma bind_getPaymentDone_eq {B} (k : Value -> M B) w :
  bind getPaymentDone k w = k (paymentDone w) w.
Proof. reflexivity. Qed.

Ltac texts :=
  try match goal with
    | H : strict_eq (VStr ?a) (VStr ?b) = true |- _ =>
        cbn in H; apply String.eqb_eq in H; congruence
    | H : strict_eq (VStr ?a) (VStr ?a) = false |- _ =>
        cbn in H; rewrite String.eqb_refl in H; discriminate
    | H : ?c = true, H' : ?c = false |- _ => congruence
    end.

(** X7: Any answer to the TryPayments notification, whatever the button,
    records the dismissal and hides the message; from then on no sequence of
    ticks and responses shows that notification again. *)
Theorem tryPayments_answer_is_final
    (buttonIndex : Value) (activeWindow : option Z) (events : list Event) (w : World) :
  distinct_messages translation ->
  strict_eq (VStr (text_tryPayments translation)) (paymentDone w) = false ->
  let answer := Response (VStr (text_tryPayments translation)) buttonIndex activeWindow in
  let w1 := snd (handle translation delayNotificationTryPayments answer w) in
  let w' := run translation delayNotificationTryPayments (answer :: events) w in
  settings w1 PAYMENTS_NOTIFICATION_TRY_PAYMENTS_DISMISSED = VBool true /\
  (exists before,
      dispatched w1 =
        (dispatched w ++ before ++
         [changeSetting PAYMENTS_NOTIFICATION_TRY_PAYMENTS_DISMISSED (VBool true);
          hideNotification (VStr (text_tryPayments translation))])%list) /\
  exists new, dispatched w' = (dispatched w ++ new)%list /\
              Forall (fun a => ~ shows_message (text_tryPayments translation) a) new.
Proof.
  intros HD Hpd answer w1 w'. pose proof HD as (D1 & D2 & D3).
  assert (H1 : settings w1 PAYMENTS_NOTIFICATION_TRY_PAYMENTS_DISMISSED = VBool true /\
               exists before,
                 dispatched w1 =
                   (dispatched w ++ before ++
                    [changeSetting PAYMENTS_NOTIFICATION_TRY_PAYMENTS_DISMISSED (VBool true);
                     hideNotification (VStr (text_tryPayments translation))])%list /\
                 Forall (fun a => ~ shows_message (text_tryPayments translation) a) before).
  { subst w1 answer. exec. rewrite Hpd. branch; texts.
    all: split; [reflexivity|].
    all: rewrite <- ?app_assoc.
    all: first [ exists []; split; [reflexivity|]
               | eexists [_]; split; [reflexivity|] ].
    all: repeat constructor.
    all: intros (n & Hs & _); discriminate. }
  destruct H1 as (Hset & before & Hd1 & Hb).
  split; [exact Hset|]. split; [eauto|].
  destruct (run_invariant
              (fun w => truthy (settings w PAYMENTS_NOTIFICATION_TRY_PAYMENTS_DISMISSED) = true)
              _ (fun e w0 => handle_keeps_dismissed e w0 HD) events w1)
    as (_ & new & Hd & Hn).
  { rewrite Hset. reflexivity. }
  subst w'. cbn [run]. fold w1. rewrite Hd, Hd1. rewrite <- !app_assoc.
  eexists. split; [reflexivity|].
  apply Forall_app. split; [exact Hb|].
  repeat constructor; try exact Hn; intros (n & Hs & _); discriminate.
Qed.

(** X8: The first button of the AddFunds, ReviewPublishers and PaymentDone
    notifications turns the notifications off: with payments enabled, no
    sequence of ticks and responses after that answer shows anything. *)
Theorem turn_off_answer_is_final
    (message : Value) (activeWindow : option Z) (events : list Event) (w : World) :
  strict_eq message (VStr (text_addFunds translation))
  || strict_eq message (VStr (text_reconciliation translation))
  || strict_eq message (paymentDone w) = true ->
  truthy (settings w PAYMENTS_ENABLED) = true ->
  let answer := Response message (VInt 0) activeWindow in
  let w1 := snd (handle translation delayNotificationTryPayments answer w) in
  let w' := run translation delayNotificationTryPayments (answer :: events) w in
  settings w1 PAYMENTS_NOTIFICATIONS = VBool false /\
  exists new, dispatched w' = (dispatched w ++ new)%list /\ silent new.
Proof.
  intros Hm He answer w1 w'.
  assert (H1 : settings w1 PAYMENTS_NOTIFICATIONS = VBool false /\
               settings w1 PAYMENTS_ENABLED = settings w PAYMENTS_ENABLED /\
               exists new, dispatched w1 = (dispatched w ++ new)%list /\ silent new).
  { subst w1 answer. exec. revert Hm. branch; cbn [orb]; intros Hm; try discriminate.
    all: split; [reflexivity|]. all: split; [reflexivity|].
    all: rewrite <- ?app_assoc; eexists; (split; [reflexivity|]).
    all: repeat constructor. }
  destruct H1 as (Hoff & Hen & new1 & Hd1 & Hs1).
  split; [exact Hoff|].
  destruct (run_invariant _ _ (fun e w0 => handle_keeps_off e w0) events w1)
    as (_ & new & Hd & Hn).
  { rewrite Hen, Hoff. split; [exact He | reflexivity]. }
  subst w'. cbn [run]. fold w1. rewrite Hd, Hd1, <- app_assoc.
  eexists. split; [reflexivity|]. apply Forall_app. split; assumption.
Qed.

(** X9: A response is ignored, completing without any effect, exactly when its
    message is none of the five texts; in that case not even the hiding of
    the message is dispatched. *)
Theorem onResponse_ignored_iff
    (message buttonIndex : Value) (activeWindow : option Z) (w : World) :
  onResponse translation message buttonIndex activeWindow w = (Normal tt, w) <->
  strict_eq message (VStr (text_addFunds translation))
  || strict_eq message (VStr (text_reconciliation translation))
  || strict_eq message (paymentDone w)
  || strict_eq message (VStr (text_tryPayments translation))
  || strict_eq message (VStr (text_walletConvertedToBat translation)) = false.
Proof.
  split.
  - intros H. apply not_true_is_false. intros Hm. revert H. exec. revert Hm.
    branch; cbn [orb]; intros Hm; try discriminate; intros H; try discriminate.
    all: injection H as H; apply (f_equal dispatched) in H; cbn in H.
    all: apply (f_equal (@length Action)) in H; rewrite ?length_app in H; cbn in H; lia.
  - intros H. repeat (apply orb_false_iff in H as [H ?]).
    unfold onResponse. rewrite bind_getPaymentDone_eq.
    repeat match goal with E : strict_eq _ _ = false |- _ => rewrite E; clear E end.
    reflexivity.
Qed.

(** X10: The answer to a notification of the first four kinds always completes,
    and the last thing it does is hide the answered notification; it shows
    nothing. *)
Theorem onResponse_hides_answered
    (message buttonIndex : Value) (activeWindow : option Z) (w : World) :
  strict_eq message (VStr (text_addFunds translation))
  || strict_eq message (VStr (text_reconciliation translation))
  || strict_eq message (paymentDone w)
  || strict_eq message (VStr (text_tryPayments translation)) = true ->
  exists w' before,
    onResponse translation message buttonIndex activeWindow w = (Normal tt, w') /\
    dispatched w' = (dispatched w ++ before ++ [hideNotification message])%list /\
    silent before /\ (length before <= 2)%nat.
Proof.
  intros Hm. exec. revert Hm. branch; cbn [orb]; intros Hm; try discriminate.
  all: eexists; rewrite <- ?app_assoc.
  all: first [ exists []; split; [reflexivity|]; split; [reflexivity|]
             | eexists [_]; split; [reflexivity|]; split; [reflexivity|]
             | eexists [_; _]; split; [reflexivity|]; split; [reflexivity|] ].
  all: split; [repeat constructor | cbn; lia].
Qed.

(** X11: The first button of the wallet-converted notification needs an active
    window: without one the handler throws before anything is dispatched, so
    the notification is not hidden either. *)
Theorem onResponse_backup_without_window (message : Value) (w : World) :
  strict_eq message (VStr (text_addFunds translation)) = false ->
  strict_eq message (VStr (text_reconciliation translation)) = false ->
  strict_eq message (paymentDone w) = false ->
  strict_eq message (VStr (text_tryPayments translation)) = false ->
  strict_eq message (VStr (text_walletConvertedToBat translation)) = true ->
  onResponse translation message (VInt 0) None w = (Throw "TypeError", w) /\
  forall windowId,
    onResponse translation message (VInt 0) (Some windowId) w =
      (Normal tt,
       {| settings := settings w; clock := clock w; reads := reads w;
          paymentDone := paymentDone w;
          dispatched :=
            (dispatched w ++
             [createTabRequested "about:preferences#payments?ledgerBackupOverlayVisible"
                windowId;
              hideNotification message])%list |}).
Proof.
  intros H1 H2 H3 H4 H5. split; [|intros windowId].
  all: unfold onResponse; rewrite bind_getPaymentDone_eq.
  all: rewrite H1, H2, H3, H4, H5.
  1: reflexivity.
  replace (strict_eq (VInt 0) (VInt 0)) with true by reflexivity.
  unfold dispatch, bind, ret. cbn. rewrite <- ?app_assoc. reflexivity.
Qed.

End scheduler_more.

(** ** The polling timer and the launch *)
Section timer_properties.

Import ledgerNotifications.

Lemma init_fresh (state : State) (t : Timers) :
  handles_created t ->
  handles_created (init state t) /\
  intervalTimeout (init state t) = Some (created t) /\
  live (init state t) =
    <[created t := (pollingInterval, state)]>
      (match intervalTimeout t with
       | Some h => delete h (live t)
       | None => live t
       end).
Proof.
  intros Hc. unfold init, setInterval, clearInterval.
  destruct (intervalTimeout t) as [h0|]; cbn; (split; [|split; reflexivity]).
  - intros h [x Hx]. cbn [live created] in *.
    apply lookup_insert_Some in Hx as [[<- _]|[Hne Hx]]; [lia|].
    apply lookup_delete_Some in Hx as [_ Hx]. specialize (Hc h (ex_intro _ x Hx)). lia.
  - intros h [x Hx]. cbn [live created] in *.
    apply lookup_insert_Some in Hx as [[<- _]|[Hne Hx]]; [lia|].
    specialize (Hc h (ex_intro _ x Hx)). lia.
Qed.

(** X12: However often [init] is called, the module owns one timer: beside the
    timers that were there before, exactly one is live afterwards; it fires
    every 15 minutes with the state of the last call, and its handle is the
    one kept in [intervalTimeout]. *)
Theorem init_one_timer (states : list State) (state : State) (t : Timers) :
  intervalTimeout t = None ->
  handles_created t ->
  let t' := inits (states ++ [state]) t in
  exists h,
    intervalTimeout t' = Some h /\
    live t !! h = None /\
    live t' = <[h := (15 * 60 * 1000, state)]> (live t).
Proof.
  intros Hnone Hc t'.
  assert (Inv : forall states,
             let u := inits states t in
             handles_created u /\
             ((intervalTimeout u = None /\ live u = live t) \/
              exists h x, intervalTimeout u = Some h /\ live t !! h = None /\
                          live u = <[h := x]> (live t))).
  { intros l. induction l as [|s l IH] using rev_ind; cbn.
    - split; [exact Hc | left; split; [exact Hnone | reflexivity]].
    - unfold inits in *. rewrite fold_left_app. cbn [fold_left].
      set (u := fold_left (fun t state => init state t) l t) in *.
      destruct IH as (Hu & IH).
      destruct (init_fresh s u Hu) as (Hc' & Hh & Hl).
      split; [exact Hc'|]. right. exists (created u), (pollingInterval, s).
      split; [exact Hh|].
      assert (Hfresh : live u !! created u = None).
      { destruct (live u !! created u) eqn:E; [|reflexivity].
        specialize (Hu _ (ex_intro _ _ E)). lia. }
      destruct IH as [[Hn Hlu]|(h & x & Hs & Hf & Hlu)].
      + rewrite Hl, Hn, Hlu. split; [now rewrite <- Hlu | reflexivity].
      + rewrite Hl, Hs, Hlu, delete_insert_id by exact Hf. split; [|reflexivity].
        rewrite Hlu in Hfresh. apply lookup_insert_None in Hfresh. tauto. }
  subst t'. unfold inits in *. rewrite fold_left_app. cbn [fold_left].
  specialize (Inv states). cbn beta zeta in Inv.
  set (u := fold_left (fun t state => init state t) states t) in *.
  destruct Inv as (Hu & IH).
  destruct (init_fresh state u Hu) as (_ & Hh & Hl).
  assert (Hfresh : live u !! created u = None).
  { destruct (live u !! created u) eqn:E; [|reflexivity].
    specialize (Hu _ (ex_intro _ _ E)). lia. }
  exists (created u). split; [exact Hh|].
  destruct IH as [[Hn Hlu]|(h & x & Hs & Hf & Hlu)].
  - rewrite Hl, Hn, Hlu. split; [now rewrite <- Hlu | reflexivity].
  - rewrite Hl, Hs, Hlu, delete_insert_id by exact Hf. split; [|reflexivity].
    rewrite Hlu in Hfresh. apply lookup_insert_None in Hfresh. tauto.
Qed.

End timer_properties.

Section launch_properties.

Import ledgerState ledgerNotifications.

Variable checkBtcBatMigrated : State -> Value -> State.
Variables isNewInstall hasUpgradedWallet hasBeenNotified : State -> Value.
Variable showBraveWalletUpdated : M unit.

Local Abbreviation onLaunch :=
  (onLaunch checkBtcBatMigrated isNewInstall hasUpgradedWallet hasBeenNotified
     showBraveWalletUpdated).

Lemma onLaunch_disabled (state : State) (w : World) :
  truthy (settings w PAYMENTS_ENABLED) = false ->
  onLaunch state w = (Normal state, w).
Proof.
  intros He. unfold ledgerNotifications.onLaunch.
  rewrite bind_getSetting. unfold js_not. now rewrite He.
Qed.

Lemma onLaunch_enabled (state : State) (w : World) :
  truthy (settings w PAYMENTS_ENABLED) = true ->
  let state' := checkBtcBatMigrated state (settings w PAYMENTS_ENABLED) in
  let notify :=
    js_gt (VNum (ToNumber (js_or (getInfoProp state' "balance") (VInt 0)))) (VInt 0)
    && truthy (settings w PAYMENTS_NOTIFICATIONS)
    && negb (truthy (isNewInstall state'))
    && truthy (hasUpgradedWallet state')
    && negb (truthy (hasBeenNotified state')) in
  onLaunch state w =
    if notify
    then bind showBraveWalletUpdated (fun _ => ret state') w
    else (Normal state', w).
Proof.
  intros He state' notify. subst notify. unfold ledgerNotifications.onLaunch.
  rewrite bind_getSetting. unfold js_not at 1. rewrite He. cbn [negb].
  fold state'. unfold hasFunds. rewrite bind_bind, bind_getSetting, He, bind_ret.
  destruct (js_gt _ (VInt 0)); cbn [andb]; [|reflexivity].
  rewrite bind_getSetting. unfold js_not.
  destruct (truthy (settings w PAYMENTS_NOTIFICATIONS)); cbn [andb negb]; [|reflexivity].
  rewrite js_and_bool. unfold js_and. cbn [truthy].
  destruct (truthy (isNewInstall state')); cbn [negb andb truthy]; [reflexivity|].
  destruct (truthy (hasUpgradedWallet state')), (truthy (hasBeenNotified state'));
    reflexivity.
Qed.

(** X13: With payments disabled the launch does nothing: the state comes back as
    it was given, not migrated.  With payments enabled it returns the
    migrated state, and it runs the wallet notification exactly when the
    migrated state has a positive balance, notifications are on, the profile
    is not a new install, the wallet was upgraded and the user was not
    notified before. *)
Theorem onLaunch_spec (state : State) (w : World) :
  let enabled := settings w PAYMENTS_ENABLED in
  let state' := checkBtcBatMigrated state enabled in
  let notify :=
    js_gt (VNum (ToNumber (js_or (getInfoProp state' "balance") (VInt 0)))) (VInt 0)
    && truthy (settings w PAYMENTS_NOTIFICATIONS)
    && negb (truthy (isNewInstall state'))
    && truthy (hasUpgradedWallet state')
    && negb (truthy (hasBeenNotified state')) in
  onLaunch state w =
    if negb (truthy enabled) then (Normal state, w)
    else if notify then bind showBraveWalletUpdated (fun _ => ret state') w
    else (Normal state', w).
Proof.
  intros enabled state' notify. destruct (truthy enabled) eqn:He; cbn [negb].
  - exact (onLaunch_enabled state w He).
  - exact (onLaunch_disabled state w He).
Qed.

End launch_properties.

(** ** More on the publisher predicates *)
Section eligibility_more.

Import ledgerState siteSettingsState ledgerUtil.

Variable getHostPattern : string -> string.

Local Abbreviation blockedP := (ledgerUtil.blockedP getHostPattern).
Local Abbreviation stickyP := (ledgerUtil.stickyP getHostPattern).
Local Abbreviation contributeP := (ledgerUtil.contributeP getHostPattern).
Local Abbreviation visibleP := (ledgerUtil.visibleP getHostPattern).

(** The showOnlyVerified value that [visibleP] works with. *)
Lemma visibleP_bool (getSetting : Settings) (state : State) (key : string) :
  let option := getSynopsisOption state "showOnlyVerified" in
  let showOnlyVerified :=
    if is_nullish option then getSetting PAYMENTS_ALLOW_NON_VERIFIED else option in
  visibleP getSetting state key =
    VBool (eligibleP state key
           && (truthy showOnlyVerified || truthy (getPublisherOption state key "verified"))
           && negb (blockedP state key)).
Proof.
  intros option showOnlyVerified. unfold visibleP, visibleP_locals.
  fold option. subst showOnlyVerified.
  destruct (is_nullish option);
    rewrite ?eligibleP_setSynopsisOption, ?blockedP_setSynopsisOption;
    unfold getPublisherOption;
    set (verified := get (options (getPublisher state key)) "verified");
    match goal with |- context [js_not ?x] => set (sov := x) end;
    destruct (eligibleP state key), (blockedP state key),
      (truthy sov) eqn:Ed, (truthy verified) eqn:Ev;
    unfold js_and, js_or, js_not; cbn [truthy negb andb orb];
    rewrite ?Ed, ?Ev; cbn [truthy negb andb orb]; rewrite ?Ev; reflexivity.
Qed.

(** X14: When the showOnlyVerified synopsis option is set, [visibleP] uses it and
    ignores the PAYMENTS_ALLOW_NON_VERIFIED setting; a truthy option lets
    publishers that are not verified through. *)
Theorem visibleP_option_set (getSetting : Settings) (state : State) (key : string) :
  is_nullish (getSynopsisOption state "showOnlyVerified") = false ->
  visibleP getSetting state key =
    VBool (eligibleP state key
           && (truthy (getSynopsisOption state "showOnlyVerified")
               || truthy (getPublisherOption state key "verified"))
           && negb (blockedP state key)) /\
  forall getSetting', visibleP getSetting' state key = visibleP getSetting state key.
Proof.
  intros Hn. split; [|intros getSetting']; rewrite !visibleP_bool, Hn; reflexivity.
Qed.

(** X15: Eligibility and the user's block are gates for both predicates: a
    publisher that is visible or contributed to is eligible and not blocked. *)
Theorem visible_or_contributing_is_eligible
    (getSetting : Settings) (state : State) (key : string) :
  truthy (visibleP getSetting state key) = true \/
  truthy (contributeP state key) = true ->
  eligibleP state key = true /\ blockedP state key = false.
Proof.
  rewrite visibleP_bool, contributeP_bool. cbn [truthy].
  destruct (eligibleP state key), (blockedP state key);
    rewrite ?andb_false_r, ?andb_false_l; cbn [andb negb]; intuition discriminate.
Qed.

(** X16: A publisher without a record in the synopsis is not eligible, not
    visible and not contributed to, whatever the settings. *)
Theorem unknown_publisher (getSetting : Settings) (state : State) (key : string) :
  synopsis_publishers state !! key = None ->
  eligibleP state key = false /\
  visibleP getSetting state key = VBool false /\
  contributeP state key = VBool false.
Proof.
  intros Hk.
  assert (He : eligibleP state key = false).
  { unfold eligibleP, getPublisher. rewrite Hk. cbn [default emptyPublisher scores].
    destruct (getSynopsisOption state "scorekeeper"); reflexivity. }
  split; [exact He|]. rewrite visibleP_bool, contributeP_bool, He.
  rewrite andb_false_r. split; reflexivity.
Qed.

(** X17: With numbers all round, a publisher is eligible exactly when its score
    under the configured scorekeeper is strictly positive and its duration
    and visits reach the minimums, which are inclusive. *)
Theorem eligibleP_numeric
    (state : State) (key scorekeeper : string) (score d v minD minV : Dec) :
  getSynopsisOption state "scorekeeper" = VStr scorekeeper ->
  scores (getPublisher state key) !! scorekeeper = Some (VNum (Fin score)) ->
  duration (getPublisher state key) = VNum (Fin d) ->
  visits (getPublisher state key) = VNum (Fin v) ->
  getSynopsisOption state "minPublisherDuration" = VNum (Fin minD) ->
  getSynopsisOption state "minPublisherVisits" = VNum (Fin minV) ->
  eligibleP state key = true <->
  (0 < D2Q score /\ D2Q minD <= D2Q d /\ D2Q minV <= D2Q v)%Q.
Proof.
  intros Hk Hs Hd Hv HmD HmV. unfold eligibleP.
  rewrite Hk, Hd, Hv, HmD, HmV. cbn [get_key]. unfold get. rewrite Hs.
  unfold default. cbn [from_option Datatypes.id].
  rewrite !andb_true_iff, !js_ge_num. unfold VInt. rewrite js_gt_num.
  cbn [ToPrimitive ToNumber]. split.
  - intros [[(a & b & [= <-] & [= <-] & Hlt) (m & [= <-] & Hm)] (n & [= <-] & Hn)].
    rewrite D2Q_of_Z in Hlt. auto.
  - intros (Hlt & Hm & Hn). split; [split|].
    + exists score, (of_Z 0). rewrite D2Q_of_Z. auto.
    + exists minD. auto.
    + exists minV. auto.
Qed.

End eligibility_more.

(** ** More on the media requests *)
Section media_more.

Import ledgerUtil.

Lemma startsWith_spec (s p : string) :
  startsWith s p = true <-> exists rest, s = p +:+ rest.
Proof.
  revert s. induction p as [|a p IH]; intros s.
  - split; [intros _; exists s; reflexivity | intros _; destruct s; reflexivity].
  - destruct s as [|b s]; cbn [startsWith].
    + split; [discriminate | intros [rest H]; rewrite append_cons in H; discriminate].
    + rewrite andb_true_iff, Ascii.eqb_eq, IH. split.
      * intros [-> [rest ->]]. exists rest. now rewrite append_cons.
      * intros [rest H]. rewrite append_cons in H. injection H as -> ->. eauto.
Qed.

Lemma sum_segments_NaN (ss es : list string) : sum_segments NaN ss es = NaN.
Proof.
  revert es. induction ss as [|s ss IH]; intros [|e es]; cbn [sum_segments];
    try reflexivity. apply IH.
Qed.

Lemma sum_segments_unparsed (ss es : list string) :
  length ss = length es ->
  Exists (fun str => parseFloat str = NaN) ss \/
  Exists (fun str => parseFloat str = NaN) es ->
  forall t, sum_segments t ss es = NaN.
Proof.
  revert es. induction ss as [|s ss IH]; intros [|e es] Hlen H t;
    try discriminate.
  - destruct H as [H|H]; inversion H.
  - cbn [sum_segments].
    assert (Hhead : parseFloat s = NaN \/ parseFloat e = NaN \/
                    (Exists (fun str => parseFloat str = NaN) ss \/
                     Exists (fun str => parseFloat str = NaN) es)).
    { destruct H as [H|H]; inversion H; subst; auto. }
    destruct Hhead as [Hs|[He|Ht]].
    + rewrite Hs. replace (nadd t (nsub (parseFloat e) NaN)) with NaN
        by (destruct t, (parseFloat e); reflexivity).
      apply sum_segments_NaN.
    + rewrite He. replace (nadd t (nsub NaN (parseFloat s))) with NaN
        by (destruct t; reflexivity).
      apply sum_segments_NaN.
    + apply IH; [now injection Hlen | exact Ht].
Qed.

(** X18: The fail-soft answer 0 does not cover unreadable times: with as many
    start times as end times, one time that [parseFloat] cannot read makes
    the duration NaN. *)
Theorem getYouTubeDuration_unparsed (data : Query) (st et : string) :
  data !! "st" = Some st -> data !! "et" = Some et ->
  length (split "," st) = length (split "," et) ->
  Exists (fun str => parseFloat str = NaN) (split "," st) \/
  Exists (fun str => parseFloat str = NaN) (split "," et) ->
  getYouTubeDuration (Some data) = NaN.
Proof.
  intros Hst Het Hlen H. unfold getYouTubeDuration. rewrite Hst, Het, Hlen, Nat.eqb_refl.
  cbn [negb]. now rewrite (sum_segments_unparsed _ _ Hlen H).
Qed.

Lemma segments_total_whole (starts ends : list Z) :
  (segments_total (map of_Z starts) (map of_Z ends)
   == inject_Z (whole_total starts ends))%Q.
Proof.
  revert ends. induction starts as [|s starts IH]; intros [|e ends];
    cbn [map segments_total whole_total]; try reflexivity.
  rewrite IH, !D2Q_of_Z, inject_Z_plus. unfold Z.sub.
  rewrite inject_Z_plus, inject_Z_opp. ring.
Qed.

Lemma whole_total_bound (B : Z) (starts ends : list Z) :
  Forall (fun z => 0 <= z < B) starts -> Forall (fun z => 0 <= z < B) ends ->
  Z.abs (whole_total starts ends) <= Z.of_nat (length starts) * B.
Proof.
  intros Hs. revert ends. induction Hs as [|s starts Hs0 Hs IH]; intros ends He.
  - cbn. lia.
  - pose proof (Zle_0_nat (length starts)) as Hn.
    destruct He as [|e ends He0 He]; cbn [whole_total length];
      rewrite Nat2Z.inj_succ, Z.mul_succ_l; [nia|].
    specialize (IH ends He). lia.
Qed.

Lemma Dtrunc_whole (d : Dec) (z : Z) : (D2Q d == inject_Z z)%Q -> Dtrunc d = z.
Proof.
  unfold D2Q, Qeq, inject_Z, Dtrunc. cbn [Qnum Qden]. rewrite den_pos.
  intros H. rewrite Z.mul_1_r in H. rewrite H.
  apply Z.quot_mul. pose proof (pow10_pos (scale d)). lia.
Qed.

Lemma prints_plain_whole (d : Dec) (z : Z) :
  (D2Q d == inject_Z z)%Q -> Z.abs z < 10 ^ 21 -> prints_plain d.
Proof.
  intros H Hz. unfold prints_plain. rewrite H.
  destruct (Z.eq_dec z 0) as [->|Hnz]; [left; reflexivity|]. right.
  replace (Qabs (inject_Z z)) with (inject_Z (Z.abs z)) by reflexivity.
  split.
  - apply Qle_trans with (inject_Z 1); [vm_compute; discriminate|].
    rewrite <- Zle_Qle. lia.
  - rewrite <- Zlt_Qlt. exact Hz.
Qed.

(** X19: for watch-time segments that start and end on whole seconds, each
    below 2^31, and at most a thousand of them, the duration is a thousand
    times the summed differences end - start.  In this range every number
    the code computes is an integer below 2^53, so the doubles are exact. *)
Theorem getYouTubeDuration_whole_seconds
    (data : Query) (st et : string) (starts ends : list Z) :
  data !! "st" = Some st -> data !! "et" = Some et ->
  parsed (split "," st) (map of_Z starts) ->
  parsed (split "," et) (map of_Z ends) ->
  length starts = length ends ->
  (length starts <= 1000)%nat ->
  Forall (fun z => 0 <= z < 2 ^ 31) starts ->
  Forall (fun z => 0 <= z < 2 ^ 31) ends ->
  getYouTubeDuration (Some data) = Fin (of_Z (1000 * whole_total starts ends)).
Proof.
  intros Hst Het Hs He Hlen Hn Hbs Hbe.
  destruct (getYouTubeDuration_plain data st et (map of_Z starts) (map of_Z ends)
              Hst Het Hs He) as (ms & _ & Hq & Hd).
  { now rewrite !length_map. }
  assert (Hms : (D2Q ms == inject_Z (1000 * whole_total starts ends))%Q)
    by (rewrite Hq, segments_total_whole, inject_Z_mult; reflexivity).
  pose proof (whole_total_bound (2 ^ 31) starts ends Hbs Hbe) as Hb.
  rewrite Hd, (Dtrunc_whole ms _ Hms); [reflexivity|].
  apply (prints_plain_whole ms _ Hms).
  assert (Z.of_nat (length starts) * 2 ^ 31 <= 1000 * 2 ^ 31) by lia.
  assert (1000 * (1000 * 2 ^ 31) < 10 ^ 21) by reflexivity. lia.
Qed.

(** X20: A request to the YouTube watch-time address is recognised as such; its
    media key is "youtube_" followed by the docid of the query (null without
    one), and its duration is the YouTube duration of the query. *)
Theorem youtube_request (url rest : string) (data : Query) :
  url = "https://www.youtube.com/api/stats/watchtime?" +:+ rest ->
  let type := getMediaProvider (Some url) in
  type = Some ledgerMediaProviders.YOUTUBE /\
  getMediaId (Some data) type = data !! "docid" /\
  getMediaKey (getMediaId (Some data) type) type =
    option_map (fun id => "youtube_" +:+ id) (data !! "docid") /\
  getMediaDuration (Some data) type = getYouTubeDuration (Some data).
Proof.
  intros Hurl type.
  assert (Ht : type = Some ledgerMediaProviders.YOUTUBE).
  { subst type. unfold getMediaProvider.
    now rewrite (proj2 (startsWith_spec url _) (ex_intro _ rest Hurl)). }
  rewrite Ht. split; [reflexivity|]. split; [reflexivity|]. split; [|reflexivity].
  cbn [getMediaId]. rewrite String.eqb_refl. now destruct (data !! "docid").
Qed.

(** X21: A request to any other address has no provider, hence no media id, no
    media key and a duration of 0, whatever its query holds. *)
Theorem other_request (url : string) (data : option Query) :
  (forall rest, url <> "https://www.youtube.com/api/stats/watchtime?" +:+ rest) ->
  let type := getMediaProvider (Some url) in
  type = None /\
  getMediaId data type = None /\
  getMediaKey (getMediaId data type) type = None /\
  getMediaDuration data type = Fin (of_Z 0).
Proof.
  intros Hurl type.
  assert (Ht : type = None).
  { subst type. unfold getMediaProvider.
    destruct (startsWith url _) eqn:E; [|reflexivity].
    apply startsWith_spec in E as [rest E]. now apply Hurl in E. }
  rewrite Ht. repeat split; reflexivity.
Qed.

End media_more.

(** ** More on the wallet status *)
Section wallet_more.

Import ledgerUtil.

(** A whole number below 1e21 prints as its digits. *)
Lemma num_to_string_whole (b : Z) :
  0 < b < 10 ^ 21 -> num_to_string (Fin (of_Z b)) = digits_of_Z b.
Proof.
  intros Hb. unfold num_to_string, of_Z.
  change (norm (mkDec b 0)) with (mkDec b 0). cbv zeta. cbn [mant].
  destruct (Z.eqb_spec b 0) as [|_]; [lia|].
  destruct (Z.ltb_spec b 0) as [|_]; [lia|].
  unfold pos_to_string. cbn [mant scale].
  set (ds := digits_of_Z b).
  destruct (strip_spec ds) as (j & Hj).
  assert (Hlen : String.length ds = (String.length (strip_trailing_zeros ds) + j)%nat)
    by (rewrite Hj at 1; now rewrite length_append, length_zeros).
  pose proof (digits_of_Z_length b ltac:(lia)) as [Hlo _]. fold ds in Hlo.
  assert (HL : Z.of_nat (String.length ds) <= 21).
  { assert (H : 10 ^ Z.of_nat (String.length ds - 1) < 10 ^ 21)
      by (unfold pow10 in Hlo; lia).
    apply Z.pow_lt_mono_r_iff in H; lia. }
  assert (Hcond : (Z.of_nat (String.length (strip_trailing_zeros ds))
                   <=? Z.of_nat (String.length ds) - Z.of_nat 0)
                  && (Z.of_nat (String.length ds) - Z.of_nat 0 <=? 21) = true)
    by (apply andb_true_iff; split; apply Z.leb_le; lia).
  rewrite Hcond.
  replace (Z.to_nat (Z.of_nat (String.length ds) - Z.of_nat 0
                     - Z.of_nat (String.length (strip_trailing_zeros ds)))) with j by lia.
  now rewrite <- Hj.
Qed.

Lemma last_char (s : string) :
  s <> "" -> exists s' c, s = s' +:+ String c "".
Proof.
  induction s as [|a s IH]; [congruence|]. intros _.
  destruct s as [|b s].
  - exists "", a. reflexivity.
  - destruct (IH ltac:(discriminate)) as (s' & c & E).
    exists (String a s'), c. now rewrite append_cons, <- E.
Qed.

Lemma is_digit_not_space (c : ascii) : is_digit c = true -> is_space c = false.
Proof.
  intros H. destruct (is_digit_cases c H) as (d & Hd & ->).
  assert (E : d = 0 \/ d = 1 \/ d = 2 \/ d = 3 \/ d = 4 \/ d = 5 \/ d = 6 \/ d = 7 \/
              d = 8 \/ d = 9) by lia.
  repeat (destruct E as [->|E]; [reflexivity|]). subst d. reflexivity.
Qed.

Lemma trim_right_last (s : string) (c : ascii) :
  is_space c = false -> trim_right (s +:+ String c "") = s +:+ String c "".
Proof.
  intros Hc. unfold trim_right.
  assert (E : rev_string "" (s +:+ String c "") = String c (rev_string "" s))
    by now rewrite rev_string_app.
  rewrite E. cbn [trim_left]. rewrite Hc, <- E. apply rev_string_involutive.
Qed.

(** The digits [ds] after "0.00" read as the number 0.00ds. *)
Lemma string_to_number_fraction (ds : string) :
  all_digits ds = true -> ds <> "" ->
  string_to_number ("0.00" +:+ ds)
    = Fin (norm (mkDec (digits_value 0 ds) (2 + String.length ds))).
Proof.
  intros Hall Hne. unfold string_to_number.
  change ("0.00" +:+ ds) with (String "0" (String "." (String "0" (String "0" ds)))).
  set (t := String "0" (String "." (String "0" (String "0" ds)))).
  assert (Ht : trim_left t = t) by reflexivity. rewrite Ht.
  assert (Hr : trim_right t = t).
  { destruct (last_char ds Hne) as (ds' & c & E).
    assert (Hc : is_digit c = true).
    { rewrite E, all_digits_app in Hall. apply andb_true_iff in Hall as [_ Hall].
      cbn in Hall. now apply andb_true_iff in Hall as [Hall _]. }
    subst t. rewrite E.
    change (String "0" (String "." (String "0" (String "0" (ds' +:+ String c "")))))
      with (String "0" (String "." (String "0" (String "0" ds'))) +:+ String c "").
    apply trim_right_last, is_digit_not_space, Hc. }
  rewrite Hr. subst t. cbv zeta.
  unfold scan_decimal. cbn [take_sign].
  assert (Hip : span_digits (String "0" (String "." (String "0" (String "0" ds))))
                = ("0", String "." (String "0" (String "0" ds)))) by reflexivity.
  rewrite Hip.
  assert (Hfp : span_digits (String "0" (String "0" ds))
                = (String "0" (String "0" ds), "")).
  { rewrite <- (append_nil_r (String "0" (String "0" ds))) at 1.
    apply span_digits_app; [|now left]. cbn [all_digits].
    now rewrite Hall. }
  rewrite Hfp. cbn [String.length scan_exponent Z.leb Z.compare].
  change ("0" +:+ String "0" (String "0" ds)) with (String "0" (String "0" (String "0" ds))).
  assert (Hm : digits_value 0 (String "0" (String "0" (String "0" ds)))
               = digits_value 0 ds) by reflexivity.
  rewrite Hm, Z.pow_0_r, Z.mul_1_r. reflexivity.
Qed.

(** X22: The concatenation in the funds test bites every whole balance: in a
    created, error-free wallet with nothing unconfirmed and a target of at
    least one BAT, a whole balance b is read as 0.00b, less than a hundredth,
    so the status is insufficientFundsStatus however large the balance. *)
Theorem walletStatus_whole_balance (ledgerData : LedgerData) (b t : Z) :
  truthy (get (props ledgerData) "error") = false ->
  truthy (get (props ledgerData) "created") = true ->
  truthy (get (props ledgerData) "unconfirmed") = false ->
  get (props ledgerData) "balance" = VInt b ->
  get (props ledgerData) "bat" = VInt t ->
  0 < b < 2 ^ 53 -> 1 <= t ->
  walletStatus ledgerData = {| id := "insufficientFundsStatus"; args := None |}.
Proof.
  intros He Hc Hu Hb Ht Hrange Htarget. unfold walletStatus.
  rewrite He, Hc, Hb, Ht. unfold js_or at 1. rewrite Hu.
  change (toFixed (ToNumber (VInt 0)) 2) with "0.00".
  assert (Hjb : js_or (VInt b) (VInt 0) = VInt b).
  { unfold js_or. replace (truthy (VInt b)) with true; [reflexivity|].
    symmetry. apply negb_true_iff, Z.eqb_neq. cbn. lia. }
  assert (Hjt : js_or (VInt t) (VInt 0) = VInt t).
  { unfold js_or. replace (truthy (VInt t)) with true; [reflexivity|].
    symmetry. apply negb_true_iff, Z.eqb_neq. cbn. lia. }
  rewrite Hjb, Hjt.
  assert (Hcat : js_add (VStr "0.00") (VNum (ToNumber (VInt b)))
                 = VStr ("0.00" +:+ digits_of_Z b)).
  { unfold js_add. cbn [ToPrimitive ToNumber VInt ToString].
    rewrite num_to_string_whole; [reflexivity|].
    assert (2 ^ 53 < 10 ^ 21) by reflexivity. lia. }
  rewrite Hcat.
  unfold js_lt, js_compare_lt. cbn [ToPrimitive ToNumber VInt].
  rewrite string_to_number_fraction.
  - cbn [nmul lift2 ncompare_lt].
    rewrite digits_of_Z_value by lia.
    replace (Dltb _ _) with true; [reflexivity|].
    symmetry. apply Dltb_spec. rewrite D2Q_norm, D2Q_mul, D2Q_of_Z.
    pose proof (digits_of_Z_length b ltac:(lia)) as [_ Hub].
    set (L := String.length (digits_of_Z b)) in *.
    unfold Qlt, D2Q. cbn [Qnum Qden Qmult inject_Z mant scale].
    rewrite Pos2Z.inj_mul, !Z2Pos.id by apply pow10_pos.
    rewrite pow10_add. change (pow10 2) with 100. change (pow10 1) with 10.
    pose proof (pow10_pos L). nia.
  - apply digits_of_Z_all. lia.
  - destruct (digits_of_Z_spec b ltac:(lia)) as (ds0 & E & _). rewrite E.
    destruct ds0; discriminate.
Qed.

End wallet_more.

(** ** The unit tests of the repository *)
Section unit_tests.

Import ledgerUtil.

Example batToCurrencyString_samples :
  batToCurrencyString VUndef None = "0.00 USD" /\
  batToCurrencyString (VInt 1) None = "" /\
  batToCurrencyString (VInt 1)
    (Some {| props := {[ "currentRate" := VStr "2" ]}; rates := None |}) = "" /\
  batToCurrencyString (VInt 5)
    (Some {| props := {[ "currentRate" := VStr "2" ]};
             rates := Some {[ "BTC" := VNum (Fin (mkDec 2222 4)) ]} |})
    = "10.00 USD".
Proof. vm_compute. repeat split; reflexivity. Qed.

Example getMediaId_samples :
  getMediaId None None = None /\
  getMediaId None (Some ledgerMediaProviders.YOUTUBE) = None /\
  getMediaId (Some ∅) (Some "test") = None /\
  getMediaId (Some {[ "docid" := "kLiLOkzLetE" ]}) (Some ledgerMediaProviders.YOUTUBE)
    = Some "kLiLOkzLetE".
Proof. vm_compute. repeat split; reflexivity. Qed.

Example getMediaProvider_samples :
  getMediaProvider None = None /\
  getMediaProvider (Some "https://www.brave.com") = None /\
  getMediaProvider
    (Some "https://www.youtube.com/api/stats/watchtime?docid=kLiLOkzLetE&st=11.338&et=21.339")
    = Some ledgerMediaProviders.YOUTUBE.
Proof. vm_compute. repeat split; reflexivity. Qed.

End unit_tests.

(** ** Samples *)
Section more_samples.

Import ledgerState siteSettingsState ledgerUtil ledgerNotifications.

Lemma showEnabledNotifications_second_window_witness :
  let state := walletAt (VInt 1000000000) (VInt 30) (VInt 10) (VInt 0) (VInt 10) in
  let w := worldAt 900000000 (settingsWith VNull VNull) in
  let nextTime := VInt (900000000 + miliseconds.day) in
  let w' := snd (showEnabledNotifications (fun key => key) state w) in
  fst (showEnabledNotifications (fun key => key) state w) = Normal tt /\
  dispatched w' =
    (dispatched w ++
     [changeSetting PAYMENTS_NOTIFICATION_RECONCILE_SOON_TIMESTAMP nextTime;
      showNotification (reviewPublishersNotification (fun key => key))])%list /\
  settings w' =
    update_setting (settings w) PAYMENTS_NOTIFICATION_RECONCILE_SOON_TIMESTAMP nextTime.
Proof.
  intros state w nextTime w'.
  assert (H1 : getInfoProp state "reconcileStamp" = VInt 1000000000) by reflexivity.
  assert (H3 : forall k, clock w k = 900000000) by reflexivity.
  assert (H4 : miliseconds.day <= 1000000000 - 900000000 < 2 * miliseconds.day)
    by (change miliseconds.day with 86400000; lia).
  assert (H5 : truthy (sufficientBalanceToReconcile state) = true) by reflexivity.
  assert (H6 : elapsed (settings w PAYMENTS_NOTIFICATION_RECONCILE_SOON_TIMESTAMP) 900000000)
    by (left; reflexivity).
  exact (showEnabledNotifications_second_window (fun key => key) state w
           1000000000 900000000 H1 ltac:(lia) H3 H4 H5 H6).
Defined.

Lemma showEnabledNotifications_quiet_witness :
  let state := walletAt (VInt 1000000000) (VInt 30) (VInt 5) (VInt 0) (VInt 10) in
  let w := worldAt 900000000 (settingsWith VNull VNull) in
  let w' := snd (showEnabledNotifications (fun key => key) state w) in
  fst (showEnabledNotifications (fun key => key) state w) = Normal tt /\
  dispatched w' = dispatched w /\ settings w' = settings w.
Proof.
  intros state w w'.
  assert (H1 : getInfoProp state "reconcileStamp" = VInt 1000000000) by reflexivity.
  assert (H3 : forall k, clock w k = 900000000) by reflexivity.
  assert (H4 : miliseconds.day <= 1000000000 - 900000000)
    by (change miliseconds.day with 86400000; lia).
  assert (H5 : truthy (sufficientBalanceToReconcile state) = false) by reflexivity.
  exact (showEnabledNotifications_quiet (fun key => key) state w 900000000 H3
           (or_intror (ex_intro _ 1000000000 (conj H1 (or_intror (conj H4 H5)))))).
Defined.

Lemma onInterval_tryPayments_witness :
  let state := firstRunAt 1000 in
  let w := worldAt 5000 (settingsDisabled (VBool false)) in
  let w' := snd (onInterval (fun key => key) (VInt 100) state w) in
  dispatched w' =
    (dispatched w ++
     if js_not (settings w PAYMENTS_NOTIFICATION_TRY_PAYMENTS_DISMISSED)
        && (100 <=? 5000 - 1000)
     then [showNotification (tryPaymentsNotification (fun key => key))] else [])%list /\
  settings w' = settings w.
Proof.
  intros state w w'.
  assert (H1 : truthy (settings w PAYMENTS_ENABLED) = false) by reflexivity.
  assert (H2 : forall k, clock w k = 5000) by reflexivity.
  assert (H3 : firstRunTimestamp state = VInt 1000) by reflexivity.
  exact (onInterval_tryPayments (fun key => key) (VInt 100) state w 5000 1000 100
           H1 H2 H3 eq_refl).
Defined.

Lemma tryPayments_dismissed_forever_witness :
  let events :=
    [Tick (firstRunAt 1000);
     Response (VStr "notificationTryPayments") (VInt 1) (Some 7);
     Tick (firstRunAt 1000)] in
  let w := worldAt 5000 (settingsDisabled (VBool true)) in
  let w' := run (fun key => key) (VInt 100) events w in
  truthy (settings w' PAYMENTS_NOTIFICATION_TRY_PAYMENTS_DISMISSED) = true /\
  exists new, dispatched w' = (dispatched w ++ new)%list /\
              Forall (fun a => ~ shows_message (text_tryPayments (fun key => key)) a) new.
Proof.
  intros events w w'.
  assert (HD : distinct_messages (fun key => key)) by (repeat split; discriminate).
  assert (H1 : truthy (settings w PAYMENTS_NOTIFICATION_TRY_PAYMENTS_DISMISSED) = true)
    by reflexivity.
  exact (tryPayments_dismissed_forever (fun key => key) (VInt 100) events w HD H1).
Defined.

Lemma notifications_off_silent_witness :
  let state := walletAt (VInt 1000000000) (VInt 30) (VInt 10) (VInt 0) (VInt 10) in
  let events := [Tick state; Response (VStr "addFundsNotification") (VInt 2) (Some 7)] in
  let w :=
    worldAt 999999000
      (update_setting (settingsWith VNull VNull) PAYMENTS_NOTIFICATIONS (VBool false)) in
  let w' := run (fun key => key) (VInt 100) events w in
  (truthy (settings w' PAYMENTS_ENABLED) = true /\
   truthy (settings w' PAYMENTS_NOTIFICATIONS) = false) /\
  exists new, dispatched w' = (dispatched w ++ new)%list /\ silent new.
Proof.
  intros state events w w'.
  assert (H1 : truthy (settings w PAYMENTS_ENABLED) = true) by reflexivity.
  assert (H2 : truthy (settings w PAYMENTS_NOTIFICATIONS) = false) by reflexivity.
  exact (notifications_off_silent (fun key => key) (VInt 100) events w H1 H2).
Defined.

Lemma tryPayments_answer_is_final_witness :
  let events := [Tick (firstRunAt 1000); Tick (firstRunAt 1000)] in
  let w := worldAt 5000 (settingsDisabled (VBool false)) in
  let answer := Response (VStr (text_tryPayments (fun key => key))) (VInt 0) (Some 7) in
  let w1 := snd (handle (fun key => key) (VInt 100) answer w) in
  let w' := run (fun key => key) (VInt 100) (answer :: events) w in
  settings w1 PAYMENTS_NOTIFICATION_TRY_PAYMENTS_DISMISSED = VBool true /\
  (exists before,
      dispatched w1 =
        (dispatched w ++ before ++
         [changeSetting PAYMENTS_NOTIFICATION_TRY_PAYMENTS_DISMISSED (VBool true);
          hideNotification (VStr (text_tryPayments (fun key => key)))])%list) /\
  exists new, dispatched w' = (dispatched w ++ new)%list /\
              Forall (fun a => ~ shows_message (text_tryPayments (fun key => key)) a) new.
Proof.
  intros events w.
  assert (HD : distinct_messages (fun key => key)) by (repeat split; discriminate).
  assert (H1 : strict_eq (VStr (text_tryPayments (fun key => key))) (paymentDone w) = false)
    by reflexivity.
  exact (tryPayments_answer_is_final (fun key => key) (VInt 100) (VInt 0) (Some 7)
           events w HD H1).
Defined.

Lemma turn_off_answer_is_final_witness :
  let state := walletAt (VInt 1000000000) (VInt 30) (VInt 5) (VInt 0) (VInt 10) in
  let events := [Tick state; Tick state] in
  let w := worldAt 999999000 (settingsWith VNull VNull) in
  let answer := Response (VStr "addFundsNotification") (VInt 0) (Some 7) in
  let w1 := snd (handle (fun key => key) (VInt 100) answer w) in
  let w' := run (fun key => key) (VInt 100) (answer :: events) w in
  settings w1 PAYMENTS_NOTIFICATIONS = VBool false /\
  exists new, dispatched w' = (dispatched w ++ new)%list /\ silent new.
Proof.
  intros state events w.
  assert (H1 : strict_eq (VStr "addFundsNotification")
                 (VStr (text_addFunds (fun key => key)))
               || strict_eq (VStr "addFundsNotification")
                    (VStr (text_reconciliation (fun key => key)))
               || strict_eq (VStr "addFundsNotification") (paymentDone w) = true)
    by reflexivity.
  assert (H2 : truthy (settings w PAYMENTS_ENABLED) = true) by reflexivity.
  exact (turn_off_answer_is_final (fun key => key) (VInt 100)
           (VStr "addFundsNotification") (Some 7) events w H1 H2).
Defined.

Lemma onResponse_hides_answered_witness :
  let w := worldAt 5000 (settingsWith VNull VNull) in
  exists w' before,
    onResponse (fun key => key) (VStr "reconciliationNotification") (VInt 2) (Some 7) w
      = (Normal tt, w') /\
    dispatched w' =
      (dispatched w ++ before ++
       [hideNotification (VStr "reconciliationNotification")])%list /\
    silent before /\ (length before <= 2)%nat.
Proof.
  intros w.
  exact (onResponse_hides_answered (fun key => key) (VStr "reconciliationNotification")
           (VInt 2) (Some 7) w eq_refl).
Defined.

Lemma onResponse_backup_without_window_witness :
  let w := worldAt 5000 (settingsWith VNull VNull) in
  let message := VStr "walletConvertedToBat" in
  onResponse (fun key => key) message (VInt 0) None w = (Throw "TypeError", w) /\
  forall windowId,
    onResponse (fun key => key) message (VInt 0) (Some windowId) w =
      (Normal tt,
       {| settings := settings w; clock := clock w; reads := reads w;
          paymentDone := paymentDone w;
          dispatched :=
            (dispatched w ++
             [createTabRequested "about:preferences#payments?ledgerBackupOverlayVisible"
                windowId;
              hideNotification message])%list |}).
Proof.
  intros w message.
  exact (onResponse_backup_without_window (fun key => key) message w
           eq_refl eq_refl eq_refl eq_refl eq_refl).
Defined.

Lemma init_one_timer_witness :
  let t := otherTimers (firstRunAt 0) in
  let t' := inits ([firstRunAt 1; firstRunAt 2] ++ [firstRunAt 3]) t in
  exists h,
    intervalTimeout t' = Some h /\
    live t !! h = None /\
    live t' = <[h := (15 * 60 * 1000, firstRunAt 3)]> (live t).
Proof.
  intros t.
  assert (H1 : intervalTimeout t = None) by reflexivity.
  assert (H2 : handles_created t).
  { intros h [x Hx]. cbn in Hx. apply lookup_singleton_Some in Hx as [<- _]. apply Nat.lt_0_1. }
  exact (init_one_timer [firstRunAt 1; firstRunAt 2] (firstRunAt 3) t H1 H2).
Defined.

Lemma visibleP_option_set_witness :
  let state :=
    setSynopsisOption (synopsisWith (publisherWith 9000 2)) "showOnlyVerified" (VBool true) in
  let getSetting := allowNonVerified false in
  visibleP hostPattern getSetting state "brave.com" =
    VBool (eligibleP state "brave.com"
           && (truthy (getSynopsisOption state "showOnlyVerified")
               || truthy (getPublisherOption state "brave.com" "verified"))
           && negb (blockedP hostPattern state "brave.com")) /\
  forall getSetting',
    visibleP hostPattern getSetting' state "brave.com"
      = visibleP hostPattern getSetting state "brave.com".
Proof.
  intros state getSetting.
  assert (H1 : is_nullish (getSynopsisOption state "showOnlyVerified") = false)
    by reflexivity.
  exact (visibleP_option_set hostPattern getSetting state "brave.com" H1).
Defined.

Lemma visible_or_contributing_is_eligible_witness :
  let state := synopsisWith (publisherWith 9000 2) in
  eligibleP state "brave.com" = true /\ blockedP hostPattern state "brave.com" = false.
Proof.
  intros state.
  assert (H1 : truthy (visibleP hostPattern (allowNonVerified true) state "brave.com") = true)
    by reflexivity.
  exact (visible_or_contributing_is_eligible hostPattern (allowNonVerified true) state
           "brave.com" (or_introl H1)).
Defined.

Lemma unknown_publisher_witness :
  let state := synopsisWith (publisherWith 9000 2) in
  eligibleP state "example.com" = false /\
  visibleP hostPattern (allowNonVerified true) state "example.com" = VBool false /\
  contributeP hostPattern state "example.com" = VBool false.
Proof.
  intros state.
  assert (H1 : synopsis_publishers state !! "example.com" = None) by reflexivity.
  exact (unknown_publisher hostPattern (allowNonVerified true) state "example.com" H1).
Defined.

Lemma eligibleP_numeric_witness :
  let state := synopsisWith (publisherWith 8000 1) in
  eligibleP state "brave.com" = true <->
  (0 < D2Q (of_Z 5) /\ D2Q (of_Z 8000) <= D2Q (of_Z 8000) /\
   D2Q (of_Z 1) <= D2Q (of_Z 1))%Q.
Proof.
  intros state.
  assert (H1 : getSynopsisOption state "scorekeeper" = VStr "concave") by reflexivity.
  assert (H2 : scores (getPublisher state "brave.com") !! "concave"
               = Some (VNum (Fin (of_Z 5)))) by reflexivity.
  assert (H3 : duration (getPublisher state "brave.com") = VNum (Fin (of_Z 8000)))
    by reflexivity.
  assert (H4 : visits (getPublisher state "brave.com") = VNum (Fin (of_Z 1)))
    by reflexivity.
  assert (H5 : getSynopsisOption state "minPublisherDuration" = VNum (Fin (of_Z 8000)))
    by reflexivity.
  assert (H6 : getSynopsisOption state "minPublisherVisits" = VNum (Fin (of_Z 1)))
    by reflexivity.
  exact (eligibleP_numeric state "brave.com" "concave" (of_Z 5) (of_Z 8000) (of_Z 1)
           (of_Z 8000) (of_Z 1) H1 H2 H3 H4 H5 H6).
Defined.

Lemma getYouTubeDuration_unparsed_witness :
  getYouTubeDuration (query "11.338,later" "21.339,25.000") = NaN.
Proof.
  assert (H1 : length (split "," "11.338,later") = length (split "," "21.339,25.000"))
    by reflexivity.
  assert (H2 : Exists (fun str => parseFloat str = NaN) (split "," "11.338,later") \/
               Exists (fun str => parseFloat str = NaN) (split "," "21.339,25.000")).
  { left. apply Exists_cons_tl, Exists_cons_hd. reflexivity. }
  exact (getYouTubeDuration_unparsed
           (<["st" := "11.338,later"]> (<["et" := "21.339,25.000"]> ∅))
           "11.338,later" "21.339,25.000" eq_refl eq_refl H1 H2).
Defined.

Lemma getYouTubeDuration_whole_seconds_witness :
  getYouTubeDuration (query "11,25" "21,26") = Fin (of_Z (1000 * whole_total [11; 25] [21; 26])).
Proof.
  assert (H1 : parsed (split "," "11,25") (map of_Z [11; 25])) by (repeat constructor).
  assert (H2 : parsed (split "," "21,26") (map of_Z [21; 26])) by (repeat constructor).
  assert (H3 : Forall (fun z => 0 <= z < 2 ^ 31) [11; 25]) by (repeat constructor; lia).
  assert (H4 : Forall (fun z => 0 <= z < 2 ^ 31) [21; 26]) by (repeat constructor; lia).
  assert (H5 : (length [11; 25] <= 1000)%nat) by (cbn; lia).
  exact (getYouTubeDuration_whole_seconds
           (<["st" := "11,25"]> (<["et" := "21,26"]> ∅))
           "11,25" "21,26" [11; 25] [21; 26] eq_refl eq_refl H1 H2 eq_refl H5 H3 H4).
Defined.

Lemma youtube_request_witness :
  let url :=
    "https://www.youtube.com/api/stats/watchtime?docid=kLiLOkzLetE&st=11.338&et=21.339" in
  let data : Query :=
    <["docid" := "kLiLOkzLetE"]> (<["st" := "11.338"]> (<["et" := "21.339"]> ∅)) in
  let type := getMediaProvider (Some url) in
  type = Some ledgerMediaProviders.YOUTUBE /\
  getMediaId (Some data) type = data !! "docid" /\
  getMediaKey (getMediaId (Some data) type) type =
    option_map (fun id => "youtube_" +:+ id) (data !! "docid") /\
  getMediaDuration (Some data) type = getYouTubeDuration (Some data).
Proof.
  intros url data.
  exact (youtube_request url "docid=kLiLOkzLetE&st=11.338&et=21.339" data eq_refl).
Defined.

Lemma other_request_witness :
  let type := getMediaProvider (Some "https://www.brave.com") in
  type = None /\
  getMediaId None type = None /\
  getMediaKey (getMediaId None type) type = None /\
  getMediaDuration None type = Fin (of_Z 0).
Proof.
  assert (H1 : forall rest,
             "https://www.brave.com"
               <> "https://www.youtube.com/api/stats/watchtime?" +:+ rest).
  { intros rest H. discriminate H. }
  exact (other_request "https://www.brave.com" None H1).
Defined.

Lemma walletStatus_whole_balance_witness :
  walletStatus (walletData VNull (VInt 250) (VInt 25))
    = {| id := "insufficientFundsStatus"; args := None |}.
Proof.
  exact (walletStatus_whole_balance (walletData VNull (VInt 250) (VInt 25)) 250 25
           eq_refl eq_refl eq_refl eq_refl eq_refl ltac:(lia) ltac:(lia)).
Defined.

End more_samples.
